(** * results/plot_results.py: the benchmark report generator

    A shallow embedding of [generate_plots]: the pandas frames it builds,
    the error-bar loops over the bars of both charts, and the files and
    printed lines it leaves behind.

    Numbers are IEEE binary64 (pandas' float64, Python's float), modelled
    by Rocq's primitive floats.  Frames live in a store indexed by
    locations, because [df_large_file] is mutated in place.  Python
    exceptions are values of [Exn]; a raise keeps the world as it was at
    the raise.  seaborn, matplotlib and the CSV parser are taken through
    the interface [Libs].

    Limits of the model: a column is a list of str cells or of float64
    cells (no missing cells, no int64 dtype), row labels are positions,
    and [plt.close] is not represented. *)

From Stdlib Require Import ZArith Floats.PrimFloat Floats.FloatOps Floats.SpecFloat.
From stdpp Require Import gmap strings list.

Local Open Scope string_scope.
Local Open Scope list_scope.
Local Open Scope Z_scope.

(** ** Exceptions and results *)

Inductive Exn :=
| KeyError (key : string)
| IndexError
| ValueError
| OverflowError
| TypeError
| AttributeError
| ParserError
| FileNotFoundError
| DanglingRef.
(* [DanglingRef] is no Python exception: it marks a read of a location
   outside the store, which no Python variable can hold. *)

Definition Res (A : Type) : Type := Exn + A.

Definition rbind {A B} (r : Res A) (k : A -> Res B) : Res B :=
  match r with
  | inl e => inl e
  | inr a => k a
  end.

Notation "'let*' x ':=' r 'in' k" := (rbind r (fun x => k))
  (at level 10, x name, r at level 100, k at level 200).

Fixpoint foldlM {A B} (f : A -> B -> Res A) (a : A) (l : list B) : Res A :=
  match l with
  | [] => inr a
  | b :: l' => let* a' := f a b in foldlM f a' l'
  end.

(** ** Python built-ins *)

(* round(m * 2^e) for m > 0, ties to the even integer. *)
Definition round_half_even (m : positive) (e : Z) : Z :=
  if 0 <=? e then Z.pos m * 2 ^ e
  else
    let d := 2 ^ (- e) in
    let q := Z.pos m / d in
    let r := Z.pos m mod d in
    match 2 * r ?= d with
    | Lt => q
    | Gt => q + 1
    | Eq => if Z.even q then q else q + 1
    end.

(* int(round(f)): float.__round__ without ndigits. *)
Definition py_round (f : float) : Res Z :=
  match Prim2SF f with
  | S754_nan => inl ValueError
  | S754_infinity _ => inl OverflowError
  | S754_zero _ => inr 0
  | S754_finite s m e =>
      inr (if s then - round_half_even m e else round_half_even m e)
  end.

(* l[i], a negative index counting from the end. *)
Definition py_getitem {A} (l : list A) (i : Z) : Res A :=
  let n := Z.of_nat (length l) in
  let j := if i <? 0 then i + n else i in
  if j <? 0 then inl IndexError
  else match l !! Z.to_nat j with
       | Some x => inr x
       | None => inl IndexError
       end.

Fixpoint starts_with (p s : string) : bool :=
  match p, s with
  | EmptyString, _ => true
  | String a p', String b s' => if Ascii.eqb a b then starts_with p' s' else false
  | String _ _, EmptyString => false
  end.

(* re.search(pat, s) for a pattern without metacharacters, as '2_5MB' is:
   pat occurs somewhere in s. *)
Fixpoint contains (pat s : string) : bool :=
  starts_with pat s ||
  match s with
  | EmptyString => false
  | String _ s' => contains pat s'
  end.

Definition ends_with (p s : string) : bool :=
  starts_with (String.rev p) (String.rev s).

(* posixpath.join(a, b) *)
Definition path_join (a b : string) : string :=
  if starts_with "/" b then b
  else if (String.length a =? 0)%nat || ends_with "/" a then a +:+ b
  else a +:+ "/" +:+ b.

(** ** pandas: Series and DataFrame *)

Inductive Scalar :=
| SStr (s : string)
| SFloat (f : float).

Inductive Data :=
| Strs (l : list string)
| Floats (l : list float).

(* A column: its cells and whether its dtype is [category]. *)
Record Series := { values : Data; categorical : bool }.

(* Columns in order, as pandas keeps them. *)
Definition DataFrame := list (string * Series).

Definition cells (s : Series) : list Scalar :=
  match values s with
  | Strs l => SStr <$> l
  | Floats l => SFloat <$> l
  end.

Definition series_length (s : Series) : nat := length (cells s).

(* df[col] *)
Fixpoint getitem (d : DataFrame) (col : string) : Res Series :=
  match d with
  | [] => inl (KeyError col)
  | (c, s) :: d' => if String.eqb c col then inr s else getitem d' col
  end.

(* df[col] = s: replaces the column, or appends it as the last one. *)
Fixpoint setitem (d : DataFrame) (col : string) (s : Series) : DataFrame :=
  match d with
  | [] => [(col, s)]
  | (c, s0) :: d' =>
      if String.eqb c col then (c, s) :: d' else (c, s0) :: setitem d' col s
  end.

Fixpoint mask_select {A} (mask : list bool) (l : list A) : list A :=
  match mask, l with
  | b :: mask', x :: l' =>
      if b then x :: mask_select mask' l' else mask_select mask' l'
  | _, _ => []
  end.

Definition series_select (mask : list bool) (s : Series) : Series :=
  {| values := match values s with
               | Strs l => Strs (mask_select mask l)
               | Floats l => Floats (mask_select mask l)
               end;
     categorical := categorical s |}.

(* df[mask] for a boolean mask computed from df's own columns: a new
   frame holding the rows where the mask is True. *)
Definition getitem_mask (d : DataFrame) (mask : list bool) : DataFrame :=
  (fun cs => (cs.1, series_select mask cs.2)) <$> d.

(* s.astype('category') *)
Definition astype_category (s : Series) : Series :=
  {| values := values s; categorical := true |}.

(* s.str.contains(pat) *)
Definition str_contains (s : Series) (pat : string) : Res (list bool) :=
  match values s with
  | Strs l => inr (contains pat <$> l)
  | Floats _ => inl AttributeError
  end.

(* s == v for a str v; a float never equals a str. *)
Definition series_eq (s : Series) (v : string) : list bool :=
  match values s with
  | Strs l => (fun x => String.eqb x v) <$> l
  | Floats l => (fun _ => false) <$> l
  end.

(* m1 & m2 *)
Definition mask_and (m1 m2 : list bool) : list bool := zip_with andb m1 m2.

Definition float_binop (op : float -> float -> float) (a b : Series) : Res Series :=
  match values a, values b with
  | Floats x, Floats y =>
      if categorical a || categorical b then inl TypeError
      else inr {| values := Floats (zip_with op x y); categorical := false |}
  | _, _ => inl TypeError
  end.

(* a / b and a * b on float64 columns of one frame *)
Definition series_truediv : Series -> Series -> Res Series := float_binop PrimFloat.div.
Definition series_mul : Series -> Series -> Res Series := float_binop PrimFloat.mul.

Definition nrows (d : DataFrame) : nat :=
  match d with
  | [] => 0%nat
  | (_, s) :: _ => series_length s
  end.

(* df.empty: no column or no row *)
Definition empty (d : DataFrame) : bool :=
  (length d =? 0)%nat || (nrows d =? 0)%nat.

(* s.iloc[i] for i >= 0 *)
Definition iloc (s : Series) (i : nat) : Res Scalar :=
  match cells s !! i with
  | Some v => inr v
  | None => inl IndexError
  end.

(* Every column has as many cells as the frame has rows. *)
Definition frame_wf (d : DataFrame) : Prop :=
  Forall (fun cs => series_length cs.2 = nrows d) d.

(** ** matplotlib: what is drawn *)

(* A colour is a tuple of channels: RGB or RGBA. *)
Definition Color := list float.

(* Tuple equality: same length and equal channels. *)
Fixpoint color_eqb (a b : Color) : bool :=
  match a, b with
  | [], [] => true
  | x :: a', y :: b' => PrimFloat.eqb x y && color_eqb a' b'
  | _, _ => false
  end.

Record Bar := {
  get_x : float;
  get_width : float;
  get_height : float;
  get_facecolor : Color
}.

Record ErrorBar := {
  eb_x : float;
  eb_y : float;
  eb_yerr : Scalar;
  eb_fmt : string;
  eb_c : string;
  eb_capsize : Z
}.

Record Label := { text : string; fontsize : Z; weight : string }.

Record Axes := {
  patches : list Bar;
  xticklabels : list string;
  errorbars : list ErrorBar;
  title : option Label;
  xlabel : option Label;
  ylabel : option Label;
  legend_title : option string;
  yscale : string
}.

(* ax.errorbar(x, y, yerr=.., fmt=.., c=.., capsize=..) *)
Definition errorbar (ax : Axes) (x y : float) (yerr : Scalar)
    (fmt c : string) (capsize : Z) : Axes :=
  {| patches := patches ax;
     xticklabels := xticklabels ax;
     errorbars := errorbars ax ++
       [{| eb_x := x; eb_y := y; eb_yerr := yerr;
           eb_fmt := fmt; eb_c := c; eb_capsize := capsize |}];
     title := title ax;
     xlabel := xlabel ax;
     ylabel := ylabel ax;
     legend_title := legend_title ax;
     yscale := yscale ax |}.

Definition set_yscale (ax : Axes) (scale : string) : Axes :=
  {| patches := patches ax;
     xticklabels := xticklabels ax;
     errorbars := errorbars ax;
     title := title ax;
     xlabel := xlabel ax;
     ylabel := ylabel ax;
     legend_title := legend_title ax;
     yscale := scale |}.

(* set_title, set_ylabel, set_xlabel and legend(title=..) of chart 1 *)
Definition decorate (ax : Axes) (t yl xl : Label) (leg : string) : Axes :=
  {| patches := patches ax;
     xticklabels := xticklabels ax;
     errorbars := errorbars ax;
     title := Some t;
     xlabel := Some xl;
     ylabel := Some yl;
     legend_title := Some leg;
     yscale := yscale ax |}.

(** ** seaborn *)

Record BarplotArgs := {
  bp_data : DataFrame;
  bp_x : string;
  bp_y : string;
  bp_hue : string;
  bp_palette : string
}.

Record CatplotArgs := {
  cp_data : DataFrame;
  cp_kind : string;
  cp_x : string;
  cp_y : string;
  cp_hue : string;
  cp_col : string;
  cp_palette : string;
  cp_height : float;
  cp_aspect : float;
  cp_sharey : bool;
  cp_errorbar : option string
}.

Record FacetGrid := {
  col_names : list string;
  axes : list Axes;
  sharey : bool;
  suptitle : option (Label * float);
  axis_labels : option (string * string);
  title_template : option string;
  despine_left : bool
}.

Definition with_axes (g : FacetGrid) (axs : list Axes) : FacetGrid :=
  {| col_names := col_names g;
     axes := axs;
     sharey := sharey g;
     suptitle := suptitle g;
     axis_labels := axis_labels g;
     title_template := title_template g;
     despine_left := despine_left g |}.

(* g.figure.suptitle, g.set_axis_labels, g.set_titles, g.despine(left=True) *)
Definition style_grid (g : FacetGrid) (sup : Label * float)
    (labels : string * string) (template : string) : FacetGrid :=
  {| col_names := col_names g;
     axes := axes g;
     sharey := sharey g;
     suptitle := Some sup;
     axis_labels := Some labels;
     title_template := Some template;
     despine_left := true |}.

(* pd.unique: the distinct values, in order of first appearance. *)
Fixpoint unique (l : list string) : list string :=
  match l with
  | [] => []
  | x :: l' => x :: filter (fun y => y <> x) (unique l')
  end.

Inductive Figure :=
| Single (ax : Axes) (figsize : Z * Z)
| Grid (g : FacetGrid).

Inductive File :=
| Raw (content : string)
| Png (fig : Figure) (dpi : Z) (bbox_inches : string).

(** The libraries the script calls.  [barplot] stands for
    [plt.subplots] followed by [sns.barplot] on the new axes.  The laws
    are seaborn's faceting: one facet per value of the [col] column, in
    [categorical_order], and the [sharey] argument kept by the grid. *)
Class Libs := {
  read_csv : File -> Res DataFrame;
  barplot : BarplotArgs -> Axes;
  catplot : CatplotArgs -> FacetGrid;
  color_palette : string -> Z -> list Color;
  catplot_col_names : forall a l,
    getitem (cp_data a) (cp_col a) = inr {| values := Strs l; categorical := false |} ->
    col_names (catplot a) = unique l;
  catplot_axes : forall a, length (axes (catplot a)) = length (col_names (catplot a));
  catplot_sharey : forall a, sharey (catplot a) = cp_sharey a
}.

(** ** The world: files, standard output, the store of frames *)

Definition loc := nat.

Record World := {
  fs : gmap string File;
  stdout : list string;
  heap : list DataFrame;
  rc_style : option string
}.

Definition M (A : Type) : Type := World -> Res A * World.

Definition ret {A} (a : A) : M A := fun w => (inr a, w).

Definition bind {A B} (m : M A) (k : A -> M B) : M B :=
  fun w =>
    match m w with
    | (inr a, w') => k a w'
    | (inl e, w') => (inl e, w')
    end.

Definition lift {A} (r : Res A) : M A := fun w => (r, w).

Notation "x <- m ;; k" := (bind m (fun x => k))
  (at level 20, m at level 99, k at level 200, only parsing).
Notation "m ;; k" := (bind m (fun _ => k))
  (at level 100, k at level 200, right associativity, only parsing).

Definition print (line : string) : M unit := fun w =>
  (inr tt, {| fs := fs w; stdout := stdout w ++ [line];
              heap := heap w; rc_style := rc_style w |}).

(* os.path.exists *)
Definition path_exists (path : string) : M bool := fun w =>
  (inr (match fs w !! path with Some _ => true | None => false end), w).

(* plt.savefig(path, dpi=.., bbox_inches=..) *)
Definition savefig (path : string) (fig : Figure) (dpi : Z) (bbox : string) : M unit :=
  fun w =>
    (inr tt, {| fs := <[path := Png fig dpi bbox]> (fs w); stdout := stdout w;
                heap := heap w; rc_style := rc_style w |}).

(* plt.style.use *)
Definition style_use (name : string) : M unit := fun w =>
  (inr tt, {| fs := fs w; stdout := stdout w;
              heap := heap w; rc_style := Some name |}).

Definition alloc (d : DataFrame) : M loc := fun w =>
  (inr (length (heap w)),
   {| fs := fs w; stdout := stdout w;
      heap := heap w ++ [d]; rc_style := rc_style w |}).

Definition deref (l : loc) : M DataFrame := fun w =>
  match heap w !! l with
  | Some d => (inr d, w)
  | None => (inl DanglingRef, w)
  end.

Definition store (l : loc) (d : DataFrame) : M unit := fun w =>
  match heap w !! l with
  | Some _ => (inr tt, {| fs := fs w; stdout := stdout w;
                          heap := <[l := d]> (heap w); rc_style := rc_style w |})
  | None => (inl DanglingRef, w)
  end.

(* Frame operations on the object a variable refers to.  Boolean
   indexing and copy() build a new object; item assignment changes the
   object in place. *)
Definition df_getitem (l : loc) (col : string) : M Series :=
  d <- deref l ;; lift (getitem d col).

Definition df_setitem (l : loc) (col : string) (s : Series) : M unit :=
  d <- deref l ;; store l (setitem d col s).

Definition df_getitem_mask (l : loc) (mask : list bool) : M loc :=
  d <- deref l ;; alloc (getitem_mask d mask).

Definition df_copy (l : loc) : M loc :=
  d <- deref l ;; alloc d.

(** ** generate_plots *)

Section Generator.
Context `{Libs}.
(* os.path.dirname(os.path.abspath(__file__)) *)
Variable results_dir : string.

(* pd.read_csv(path) *)
Definition pd_read_csv (path : string) : M DataFrame := fun w =>
  match fs w !! path with
  | Some f => (read_csv f, w)
  | None => (inl FileNotFoundError, w)
  end.

(* Lines 14-16: the frame is read and Cipher and Operation made
   categorical. *)
Definition load (csv_path : string) : M loc :=
  d <- pd_read_csv csv_path ;;
  df <- alloc d ;;
  c <- df_getitem df "Cipher" ;;
  df_setitem df "Cipher" (astype_category c) ;;
  o <- df_getitem df "Operation" ;;
  df_setitem df "Operation" (astype_category o) ;;
  ret df.

(* Line 21: df[df['Filename'].str.contains('2_5MB')].copy() *)
Definition filter_large_file (df : loc) : M loc :=
  fname <- df_getitem df "Filename" ;;
  mask <- lift (str_contains fname "2_5MB") ;;
  sub <- df_getitem_mask df mask ;;
  df_copy sub.

(* Line 22: the derived column, assigned in place. *)
Definition derive_throughput_stddev (df_large_file : loc) : M unit :=
  t <- df_getitem df_large_file "Throughput(MB/s)" ;;
  m <- df_getitem df_large_file "MeanTime(ms)" ;;
  q <- lift (series_truediv t m) ;;
  s <- df_getitem df_large_file "StdDev(ms)" ;;
  v <- lift (series_mul q s) ;;
  df_setitem df_large_file "Throughput_StdDev" v.

Definition make_large_file (df : loc) : M loc :=
  df_large_file <- filter_large_file df ;;
  derive_throughput_stddev df_large_file ;;
  ret df_large_file.

(* ax.get_xticklabels()[int(round(bar.get_x() + bar.get_width() / 2))].get_text() *)
Definition bar_center (bar : Bar) : float :=
  PrimFloat.add (get_x bar) (PrimFloat.div (get_width bar) 2%float).

Definition tick_label (ax : Axes) (bar : Bar) : Res string :=
  let* i := py_round (bar_center bar) in
  py_getitem (xticklabels ax) i.

(* 'encrypt' if bar_color == sns.color_palette(palette, 2)[0] else 'decrypt' *)
Definition hue_of (palette : string) (bar : Bar) : Res string :=
  let bar_color := get_facecolor bar in
  let* first := py_getitem (color_palette palette 2) 0 in
  inr (if color_eqb bar_color first then "encrypt" else "decrypt").

(* d[(d['Cipher'] == x_val) & (d['Operation'] == hue_val)] *)
Definition select_rows (d : DataFrame) (x_val hue_val : string) : Res DataFrame :=
  let* c := getitem d "Cipher" in
  let* o := getitem d "Operation" in
  inr (getitem_mask d (mask_and (series_eq c x_val) (series_eq o hue_val))).

(* The body of [for bar in ax.patches], lines 28-39 and 78-87; the two
   loops differ in the frame, the palette, the column read and the cap
   size. *)
Definition error_bar_step (d : DataFrame) (palette err_col : string)
    (capsize : Z) (ax : Axes) (bar : Bar) : Res Axes :=
  let* x_val := tick_label ax bar in
  let* hue_val := hue_of palette bar in
  let* row := select_rows d x_val hue_val in
  if negb (empty row) then
    let* col := getitem row err_col in
    let* error := iloc col 0 in
    inr (errorbar ax (bar_center bar) (get_height bar) error "none" "black" capsize)
  else inr ax.

Definition error_bar_loop (d : DataFrame) (palette err_col : string)
    (capsize : Z) (ax : Axes) (bars : list Bar) : Res Axes :=
  foldlM (error_bar_step d palette err_col capsize) ax bars.

Definition add_error_bars (d : DataFrame) (palette err_col : string)
    (capsize : Z) (ax : Axes) : Res Axes :=
  error_bar_loop d palette err_col capsize ax (patches ax).

Definition throughput_plot_path : string :=
  path_join results_dir "throughput_comparison_with_stddev.png".

Definition performance_plot_path : string :=
  path_join results_dir "performance_comparison_with_stddev.png".

(* Lines 19-49.  The loop reads [df_large_file] at every bar; nothing
   assigns to it in between, so it is read once here. *)
Definition chart1 (df : loc) : M unit :=
  style_use "seaborn-v0_8-whitegrid" ;;
  df_large_file <- make_large_file df ;;
  data <- deref df_large_file ;;
  ax <- lift (add_error_bars data "viridis" "Throughput_StdDev" 4
                (barplot {| bp_data := data; bp_x := "Cipher";
                            bp_y := "Throughput(MB/s)"; bp_hue := "Operation";
                            bp_palette := "viridis" |})) ;;
  savefig throughput_plot_path
    (Single (decorate ax
               {| text := "Throughput for 2.5MB File (Larger is Better)";
                  fontsize := 16; weight := "bold" |}
               {| text := "Throughput (MB/s)"; fontsize := 12; weight := "normal" |}
               {| text := "Cipher"; fontsize := 12; weight := "normal" |}
               "Operation")
            (12, 7))
    300 "tight" ;;
  print ("Saved throughput plot to: " +:+ throughput_plot_path).

(* The body of [for i, ax in enumerate(g.axes.flat)], lines 74-87 *)
Definition facet_step (data : DataFrame) (g : FacetGrid) (i : nat) (ax : Axes)
    : Res Axes :=
  let ax := set_yscale ax "log" in
  let* filename := py_getitem (col_names g) (Z.of_nat i) in
  let* fcol := getitem data "Filename" in
  let sub_df := getitem_mask data (series_eq fcol filename) in
  add_error_bars sub_df "plasma" "StdDev(ms)" 3 ax.

Fixpoint facet_loop (data : DataFrame) (g : FacetGrid) (i : nat)
    (axs : list Axes) : Res (list Axes) :=
  match axs with
  | [] => inr []
  | ax :: axs' =>
      let* ax' := facet_step data g i ax in
      let* rest := facet_loop data g (S i) axs' in
      inr (ax' :: rest)
  end.

Definition catplot_args (data : DataFrame) : CatplotArgs :=
  {| cp_data := data; cp_kind := "bar"; cp_x := "Cipher"; cp_y := "MeanTime(ms)";
     cp_hue := "Operation"; cp_col := "Filename"; cp_palette := "plasma";
     cp_height := 5%float;
     cp_aspect := 0x1.ccccccccccccdp-1%float (* 0.9 *);
     cp_sharey := false; cp_errorbar := None |}.

(* Lines 53-92.  Likewise [df] is read once for the whole chart. *)
Definition chart2 (df : loc) : M unit :=
  data <- deref df ;;
  let g := style_grid (catplot (catplot_args data))
             ({| text := "Mean Execution Time by File Size (Smaller is Better)";
                 fontsize := 16; weight := "bold" |},
              0x1.07ae147ae147bp+0%float (* 1.03 *))
             ("Cipher", "Mean Time (ms)")
             "File: {col_name}" in
  axs <- lift (facet_loop data g 0 (axes g)) ;;
  savefig performance_plot_path (Grid (with_axes g axs)) 300 "tight" ;;
  print ("Saved performance plot to: " +:+ performance_plot_path).

Definition csv_path : string := path_join results_dir "benchmark_results.csv".

Definition generate_plots : M unit :=
  found <- path_exists csv_path ;;
  if negb found then
    print ("Error: " +:+ csv_path +:+ " not found.")
  else
    df <- load csv_path ;;
    chart1 df ;;
    chart2 df.

End Generator.

(** ** Lines 21 and 22 on frames *)

Definition set_heap (w : World) (h : list DataFrame) : World :=
  {| fs := fs w; stdout := stdout w; heap := h; rc_style := rc_style w |}.

(* The mask of line 21, on the frame [df] refers to. *)
Definition large_file_mask (d : DataFrame) : Res (list bool) :=
  let* fname := getitem d "Filename" in
  str_contains fname "2_5MB".

(* The right-hand side of line 22, on the frame [df_large_file] refers to. *)
Definition throughput_stddev (d : DataFrame) : Res Series :=
  let* t := getitem d "Throughput(MB/s)" in
  let* m := getitem d "MeanTime(ms)" in
  let* q := series_truediv t m in
  let* s := getitem d "StdDev(ms)" in
  series_mul q s.




(** ** A small instance of the libraries, and a small world *)

Module Demo.

Definition enc_color : Color := [0.25%float; 0.5%float; 0.75%float].
Definition dec_color : Color := [0.5%float; 0.25%float; 0.125%float].

Definition strings_of (d : DataFrame) (col : string) : list string :=
  match getitem d col with
  | inr s => match values s with Strs l => l | Floats _ => [] end
  | inl _ => []
  end.

(* Two bars of width 0.5 around each tick, the first in the first
   palette colour. *)
Fixpoint bars_at (pos : float) (labels : list string) : list Bar :=
  match labels with
  | [] => []
  | _ :: rest =>
      {| get_x := PrimFloat.sub pos 0.5%float; get_width := 0.5%float;
         get_height := 1%float; get_facecolor := enc_color |}
      :: {| get_x := pos; get_width := 0.5%float;
            get_height := 2%float; get_facecolor := dec_color |}
      :: bars_at (PrimFloat.add pos 1%float) rest
  end.

Definition draw (d : DataFrame) (x : string) : Axes :=
  {| patches := bars_at 0%float (unique (strings_of d x));
     xticklabels := unique (strings_of d x);
     errorbars := []; title := None; xlabel := None; ylabel := None;
     legend_title := None; yscale := "linear" |}.

Definition facets (a : CatplotArgs) : FacetGrid :=
  {| col_names := unique (strings_of (cp_data a) (cp_col a));
     axes := (fun _ => draw (cp_data a) (cp_x a)) <$>
               unique (strings_of (cp_data a) (cp_col a));
     sharey := cp_sharey a;
     suptitle := None; axis_labels := None; title_template := None;
     despine_left := false |}.

Definition frame : DataFrame :=
  [("Cipher", {| values := Strs ["AES"; "AES"; "AES"; "AES"; "DES"; "DES"];
                 categorical := false |});
   ("Operation", {| values := Strs ["encrypt"; "decrypt"; "encrypt"; "decrypt";
                                    "encrypt"; "decrypt"];
                    categorical := false |});
   ("Filename", {| values := Strs ["1MB"; "1MB"; "2_5MB"; "2_5MB"; "1MB"; "2_5MB"];
                   categorical := false |});
   ("MeanTime(ms)", {| values := Floats [2%float; 4%float; 0%float; 8%float;
                                         2%float; 4%float];
                       categorical := false |});
   ("StdDev(ms)", {| values := Floats [0.5%float; 0.5%float; 0.25%float; 1%float;
                                       0.5%float; 0.5%float];
                     categorical := false |});
   ("Throughput(MB/s)", {| values := Floats [16%float; 8%float; 32%float; 16%float;
                                             16%float; 8%float];
                           categorical := false |})].

Definition parse (f : File) : Res DataFrame :=
  match f with
  | Raw _ => inr frame
  | Png _ _ _ => inl ParserError
  end.

Definition palette (name : string) (n : Z) : list Color := [enc_color; dec_color].

(* The instance: the three laws hold of [facets] by computation. *)
Definition libs : Libs.
Proof.
  refine {| read_csv := parse; barplot := fun a => draw (bp_data a) (bp_x a);
            catplot := facets; color_palette := palette |}.
  - intros a l E. unfold facets, strings_of. simpl. now rewrite E.
  - intros a. unfold facets. simpl. apply length_fmap.
  - reflexivity.
Defined.

Definition dir : string := "/bench/results".

Definition world : World :=
  {| fs := {[ "/bench/results/benchmark_results.csv" := Raw "csv" ]};
     stdout := []; heap := []; rc_style := None |}.

Definition empty_world : World :=
  {| fs := ∅; stdout := []; heap := []; rc_style := None |}.

Definition names : list string := ["1MB"; "1MB"; "2_5MB"; "2_5MB"; "1MB"; "2_5MB"].

(* The rows of the 2.5MB file: AES in both directions, DES decrypt only. *)
Definition large_file : DataFrame :=
  let sub := getitem_mask frame (contains "2_5MB" <$> names) in
  match throughput_stddev sub with
  | inr v => setitem sub "Throughput_StdDev" v
  | inl _ => sub
  end.

Definition large_axes : Axes := draw large_file "Cipher".


(* The four bars of [large_axes]. *)
Definition aes_encrypt_bar : Bar :=
  {| get_x := (-0.5)%float; get_width := 0.5%float;
     get_height := 1%float; get_facecolor := enc_color |}.
Definition aes_decrypt_bar : Bar :=
  {| get_x := 0%float; get_width := 0.5%float;
     get_height := 2%float; get_facecolor := dec_color |}.
Definition des_encrypt_bar : Bar :=
  {| get_x := 0.5%float; get_width := 0.5%float;
     get_height := 1%float; get_facecolor := enc_color |}.
Definition des_decrypt_bar : Bar :=
  {| get_x := 1%float; get_width := 0.5%float;
     get_height := 2%float; get_facecolor := dec_color |}.

End Demo.

(* The lines printed after each chart is saved, lines 49 and 92. *)
Definition throughput_line (results_dir : string) : string :=
  "Saved throughput plot to: " +:+ throughput_plot_path results_dir.

Definition performance_line (results_dir : string) : string :=
  "Saved performance plot to: " +:+ performance_plot_path results_dir.

(** A second instance, whose facets hold one bar far to the right of
    the ticks: on it the second chart raises after the first is saved. *)
Module DemoStray.

Definition stray_bar : Bar :=
  {| get_x := 7%float; get_width := 0.5%float;
     get_height := 1%float; get_facecolor := Demo.enc_color |}.

Definition stray_axes (d : DataFrame) (x : string) : Axes :=
  {| patches := [stray_bar];
     xticklabels := unique (Demo.strings_of d x);
     errorbars := []; title := None; xlabel := None; ylabel := None;
     legend_title := None; yscale := "linear" |}.

Definition facets (a : CatplotArgs) : FacetGrid :=
  {| col_names := unique (Demo.strings_of (cp_data a) (cp_col a));
     axes := (fun _ => stray_axes (cp_data a) (cp_x a)) <$>
               unique (Demo.strings_of (cp_data a) (cp_col a));
     sharey := cp_sharey a;
     suptitle := None; axis_labels := None; title_template := None;
     despine_left := false |}.

Definition libs : Libs.
Proof.
  refine {| read_csv := Demo.parse;
            barplot := fun a => Demo.draw (bp_data a) (bp_x a);
            catplot := facets; color_palette := Demo.palette |}.
  - intros a l E. unfold facets, Demo.strings_of. simpl. now rewrite E.
  - intros a. unfold facets. simpl. apply length_fmap.
  - reflexivity.
Defined.

End DemoStray.


(** ** Strings *)

Lemma starts_with_spec (p s : string) :
  starts_with p s = true <-> exists t, s = p +:+ t.
Proof.
  revert s. induction p as [|a p IH]; intros s; simpl.
  - split; [intros _; now exists s | reflexivity].
  - destruct s as [|b s].
    + split; [discriminate | intros [t Ht]; discriminate].
    + destruct (Ascii.eqb a b) eqn:E.
      * apply Ascii.eqb_eq in E. subst b. rewrite IH.
        split; intros [t Ht]; exists t; [now rewrite Ht | now injection Ht].
      * apply Ascii.eqb_neq in E.
        split; [discriminate | intros [t Ht]; injection Ht; congruence].
Qed.

Lemma contains_spec (p s : string) :
  contains p s = true <-> exists a b, s = a +:+ p +:+ b.
Proof.
  induction s as [|c s IH]; simpl.
  - rewrite orb_false_r, starts_with_spec. split.
    + intros [t Ht]. now exists "", t.
    + intros [a [b E]]. destruct a as [|x a]; [now exists b | discriminate].
  - rewrite orb_true_iff, starts_with_spec, IH. split.
    + intros [[t Ht] | [a [b E]]].
      * now exists "", t.
      * exists (String c a), b. simpl. now rewrite E.
    + intros [a [b E]]. destruct a as [|x a].
      * left. now exists b.
      * right. exists a, b. simpl in E. now injection E.
Qed.

(** ** Frames *)

Lemma mask_select_by {A B} (f : B -> bool) (keys : list B) (l : list A) :
  mask_select (f <$> keys) l = (filter (fun p => f p.1 = true) (zip keys l)).*2.
Proof.
  revert l. induction keys as [|k keys IH]; intros [|x l]; simpl; try reflexivity.
  rewrite filter_cons. simpl. destruct (f k); simpl.
  - destruct (decide (true = true)); [|done]. simpl. now rewrite IH.
  - destruct (decide (false = true)); [done|]. apply IH.
Qed.

Lemma mask_select_fmap {A B} (f : A -> B) (mask : list bool) (l : list A) :
  mask_select mask (f <$> l) = f <$> mask_select mask l.
Proof.
  revert l. induction mask as [|b mask IH]; intros [|x l]; simpl; try reflexivity.
  destruct b; simpl; now rewrite IH.
Qed.

Lemma cells_series_select (mask : list bool) (s : Series) :
  cells (series_select mask s) = mask_select mask (cells s).
Proof.
  unfold cells, series_select. simpl.
  destruct (values s); now rewrite mask_select_fmap.
Qed.

Lemma getitem_getitem_mask (d : DataFrame) (mask : list bool) (col : string) :
  getitem (getitem_mask d mask) col =
  match getitem d col with
  | inr s => inr (series_select mask s)
  | inl e => inl e
  end.
Proof.
  induction d as [|[c s] d IH]; simpl; [reflexivity|].
  destruct (String.eqb c col); [reflexivity | apply IH].
Qed.

Lemma getitem_setitem_eq (d : DataFrame) (col : string) (s : Series) :
  getitem (setitem d col s) col = inr s.
Proof.
  induction d as [|[c s0] d IH]; simpl.
  - now rewrite String.eqb_refl.
  - destruct (String.eqb c col) eqn:E; simpl; rewrite E; [reflexivity | apply IH].
Qed.

Lemma getitem_setitem_ne (d : DataFrame) (col col' : string) (s : Series) :
  col <> col' -> getitem (setitem d col s) col' = getitem d col'.
Proof.
  intros Hne. induction d as [|[c s0] d IH]; simpl.
  - destruct (String.eqb col col') eqn:E; [|reflexivity].
    apply String.eqb_eq in E. contradiction.
  - destruct (String.eqb c col) eqn:E; simpl.
    + apply String.eqb_eq in E. subst c.
      destruct (String.eqb col col') eqn:E'; [|reflexivity].
      apply String.eqb_eq in E'. contradiction.
    + destruct (String.eqb c col'); [reflexivity | apply IH].
Qed.

Lemma unique_elem (l : list string) (x : string) : x ∈ unique l <-> x ∈ l.
Proof.
  induction l as [|y l IH]; simpl; [reflexivity|].
  rewrite !elem_of_cons, list_elem_of_filter, IH.
  destruct (decide (x = y)); tauto.
Qed.

Lemma unique_NoDup (l : list string) : NoDup (unique l).
Proof.
  induction l as [|y l IH]; simpl; [constructor|].
  constructor.
  - rewrite list_elem_of_filter. intros [Hne _]. now apply Hne.
  - now apply NoDup_filter.
Qed.

(** ** The store after lines 21 and 22 *)

Lemma lookup_snoc_new {A} (l : list A) (x : A) : (l ++ [x]) !! length l = Some x.
Proof. now apply list_lookup_middle. Qed.

Lemma filter_large_file_run (df : loc) (w : World) :
  filter_large_file df w =
  match heap w !! df with
  | None => (inl DanglingRef, w)
  | Some d =>
      match large_file_mask d with
      | inl e => (inl e, w)
      | inr mask =>
          (inr (S (length (heap w))),
           set_heap w ((heap w ++ [getitem_mask d mask]) ++ [getitem_mask d mask]))
      end
  end.
Proof.
  unfold filter_large_file, df_getitem, df_getitem_mask, df_copy, large_file_mask.
  unfold bind, deref, lift, alloc. simpl.
  destruct (heap w !! df) as [d|] eqn:E; [|reflexivity].
  destruct (getitem d "Filename") as [e|fname]; simpl; [reflexivity|].
  destruct (str_contains fname "2_5MB") as [e|mask]; simpl; [reflexivity|].
  rewrite E. simpl. rewrite lookup_snoc_new. simpl.
  rewrite length_app. simpl. rewrite Nat.add_1_r. reflexivity.
Qed.

Lemma derive_throughput_stddev_run (l : loc) (w : World) :
  derive_throughput_stddev l w =
  match heap w !! l with
  | None => (inl DanglingRef, w)
  | Some d =>
      match throughput_stddev d with
      | inl e => (inl e, w)
      | inr v => (inr tt, set_heap w (<[l := setitem d "Throughput_StdDev" v]> (heap w)))
      end
  end.
Proof.
  unfold derive_throughput_stddev, df_getitem, df_setitem, throughput_stddev.
  unfold bind, deref, lift, store. simpl.
  destruct (heap w !! l) as [d|] eqn:E; [|reflexivity].
  destruct (getitem d "Throughput(MB/s)") as [e|t]; simpl; [reflexivity|].
  rewrite E.
  destruct (getitem d "MeanTime(ms)") as [e|m]; simpl; [reflexivity|].
  destruct (series_truediv t m) as [e|q]; simpl; [reflexivity|].
  rewrite E.
  destruct (getitem d "StdDev(ms)") as [e|s]; simpl; [reflexivity|].
  destruct (series_mul q s) as [e|v]; simpl; [reflexivity|].
  rewrite E. simpl. now rewrite E.
Qed.

Lemma make_large_file_run (df : loc) (w : World) :
  make_large_file df w =
  match heap w !! df with
  | None => (inl DanglingRef, w)
  | Some d =>
      match large_file_mask d with
      | inl e => (inl e, w)
      | inr mask =>
          let sub := getitem_mask d mask in
          match throughput_stddev sub with
          | inl e => (inl e, set_heap w ((heap w ++ [sub]) ++ [sub]))
          | inr v =>
              (inr (S (length (heap w))),
               set_heap w ((heap w ++ [sub]) ++ [setitem sub "Throughput_StdDev" v]))
          end
      end
  end.
Proof.
  unfold make_large_file, bind. rewrite filter_large_file_run.
  destruct (heap w !! df) as [d|]; [|reflexivity].
  destruct (large_file_mask d) as [e|mask]; [reflexivity|].
  rewrite derive_throughput_stddev_run. simpl.
  assert (Hl : S (length (heap w)) = length (heap w ++ [getitem_mask d mask])).
  { rewrite length_app. simpl. lia. }
  rewrite Hl at 1. rewrite lookup_snoc_new.
  destruct (throughput_stddev (getitem_mask d mask)) as [e|v]; [reflexivity|].
  unfold ret, set_heap. simpl.
  rewrite Hl. rewrite insert_app_r_alt by lia. rewrite Nat.sub_diag. reflexivity.
Qed.

Lemma lookup_after_two {A} (l : list A) (x y : A) :
  ((l ++ [x]) ++ [y]) !! S (length l) = Some y.
Proof.
  replace (S (length l)) with (length (l ++ [x])).
  - apply lookup_snoc_new.
  - rewrite length_app. simpl. lia.
Qed.

Lemma lookup_before_two {A} (l : list A) (x y : A) (i : nat) :
  (i < length l)%nat -> ((l ++ [x]) ++ [y]) !! i = l !! i.
Proof.
  intros Hi. rewrite lookup_app_l by (rewrite length_app; lia).
  now rewrite lookup_app_l.
Qed.

(* When line 22 succeeds, its three inputs are float64 columns and the
   result is their row-wise (t / m) * s. *)
Lemma throughput_stddev_inv (d : DataFrame) (v : Series) :
  throughput_stddev d = inr v ->
  exists ts ms ss,
    getitem d "Throughput(MB/s)" = inr {| values := Floats ts; categorical := false |} /\
    getitem d "MeanTime(ms)" = inr {| values := Floats ms; categorical := false |} /\
    getitem d "StdDev(ms)" = inr {| values := Floats ss; categorical := false |} /\
    v = {| values := Floats (zip_with PrimFloat.mul (zip_with PrimFloat.div ts ms) ss);
           categorical := false |}.
Proof.
  unfold throughput_stddev, series_truediv, series_mul, float_binop.
  destruct (getitem d "Throughput(MB/s)") as [e|t]; simpl; [discriminate|].
  destruct (getitem d "MeanTime(ms)") as [e|m]; simpl; [discriminate|].
  destruct (getitem d "StdDev(ms)") as [e|s].
  - destruct (values t), (values m); try discriminate.
    destruct (categorical t || categorical m); discriminate.
  - destruct t as [[?|ts] [|]], m as [[?|ms] [|]]; simpl; try discriminate.
    destruct s as [[?|ss] [|]]; simpl; try discriminate.
    intros E. injection E as <-. now exists ts, ms, ss.
Qed.

Lemma throughput_stddev_floats (d : DataFrame) (ts ms ss : list float) :
  getitem d "Throughput(MB/s)" = inr {| values := Floats ts; categorical := false |} ->
  getitem d "MeanTime(ms)" = inr {| values := Floats ms; categorical := false |} ->
  getitem d "StdDev(ms)" = inr {| values := Floats ss; categorical := false |} ->
  throughput_stddev d =
  inr {| values := Floats (zip_with PrimFloat.mul (zip_with PrimFloat.div ts ms) ss);
         categorical := false |}.
Proof.
  intros Ht Hm Hs. unfold throughput_stddev. now rewrite Ht, Hm, Hs.
Qed.

Lemma derived_name_ne_throughput : "Throughput_StdDev" <> "Throughput(MB/s)".
Proof. discriminate. Qed.
Lemma derived_name_ne_mean : "Throughput_StdDev" <> "MeanTime(ms)".
Proof. discriminate. Qed.
Lemma derived_name_ne_stddev : "Throughput_StdDev" <> "StdDev(ms)".
Proof. discriminate. Qed.

Lemma mask_select_first {A} (i : nat) (mask : list bool) (l : list A) :
  (forall j, (j < i)%nat -> mask !! j = Some false) ->
  mask !! i = Some true ->
  mask_select mask l !! 0%nat = l !! i.
Proof.
  revert mask l. induction i as [|i IH]; intros mask l Hlt Hi.
  - destruct mask as [|b mask]; [discriminate|]. simpl in Hi. injection Hi as ->.
    destruct l; reflexivity.
  - destruct mask as [|b mask]; [discriminate|].
    assert (Hb : b = false).
    { specialize (Hlt 0%nat ltac:(lia)). simpl in Hlt. now injection Hlt. }
    subst b. destruct l as [|x l]; [reflexivity|]. simpl.
    apply IH; [|exact Hi].
    intros j Hj. apply (Hlt (S j)). lia.
Qed.

Lemma getitem_elem (d : DataFrame) (col : string) (s : Series) :
  getitem d col = inr s -> exists c, (c, s) ∈ d.
Proof.
  induction d as [|[c s0] d IH]; simpl; [discriminate|].
  destruct (String.eqb c col).
  - intros E. injection E as ->. exists c. apply list_elem_of_here.
  - intros E. destruct (IH E) as [c' Hc']. exists c'. now apply list_elem_of_further.
Qed.

Lemma frame_wf_length (d : DataFrame) (col : string) (s : Series) :
  frame_wf d -> getitem d col = inr s -> series_length s = nrows d.
Proof.
  intros Hwf Hs. destruct (getitem_elem _ _ _ Hs) as [c Hc].
  unfold frame_wf in Hwf. rewrite Forall_forall in Hwf. apply (Hwf _ Hc).
Qed.

Lemma nrows_getitem_mask (d : DataFrame) (mask : list bool) :
  nrows (getitem_mask d mask) =
  match d with
  | [] => 0%nat
  | (_, s) :: _ => length (mask_select mask (cells s))
  end.
Proof.
  destruct d as [|[c s] d]; [reflexivity|]. simpl.
  unfold series_length. now rewrite cells_series_select.
Qed.

(** ** The claims *)

(** C9. Line 21 keeps a row exactly when its Filename has "2_5MB" as a
    substring: every column of the filtered frame holds, in order, the
    cells of the rows whose Filename cell contains the marker, and
    containing it means having it somewhere inside the string. *)
Theorem large_file_subset_is_substring_match (df : loc) (w : World)
    (d : DataFrame) (names : list string) (k : bool) :
  heap w !! df = Some d ->
  getitem d "Filename" = inr {| values := Strs names; categorical := k |} ->
  exists l w' sub,
    filter_large_file df w = (inr l, w') /\
    heap w' !! l = Some sub /\
    (forall col s, getitem d col = inr s ->
       exists s', getitem sub col = inr s' /\
         cells s' =
         (filter (fun p => contains "2_5MB" p.1 = true) (zip names (cells s))).*2) /\
    (forall name, contains "2_5MB" name = true <->
                  exists a b, name = a +:+ "2_5MB" +:+ b) /\
    contains "2_5MB" "x_2_5MB_v2" = true.
Proof.
  intros Hd Hf. rewrite filter_large_file_run, Hd.
  unfold large_file_mask. rewrite Hf. simpl.
  eexists _, _, _. split; [reflexivity|]. simpl.
  split; [apply lookup_after_two|].
  split; [|split; [intros name; apply contains_spec | reflexivity]].
  intros col s Hs. rewrite getitem_getitem_mask, Hs.
  eexists. split; [reflexivity|].
  rewrite cells_series_select. apply mask_select_by.
Qed.

Lemma large_file_subset_is_substring_match_witness :
  exists l w' sub,
    filter_large_file 0%nat (set_heap Demo.empty_world [Demo.frame]) = (inr l, w') /\
    heap w' !! l = Some sub /\
    (forall col s, getitem Demo.frame col = inr s ->
       exists s', getitem sub col = inr s' /\
         cells s' =
         (filter (fun p => contains "2_5MB" p.1 = true)
            (zip ["1MB"; "1MB"; "2_5MB"; "2_5MB"; "1MB"; "2_5MB"] (cells s))).*2) /\
    (forall name, contains "2_5MB" name = true <->
                  exists a b, name = a +:+ "2_5MB" +:+ b) /\
    contains "2_5MB" "x_2_5MB_v2" = true.
Proof.
  apply (large_file_subset_is_substring_match 0%nat
           (set_heap Demo.empty_world [Demo.frame]) Demo.frame
           ["1MB"; "1MB"; "2_5MB"; "2_5MB"; "1MB"; "2_5MB"] false);
    reflexivity.
Defined.

(** C1. When lines 21-22 complete, [df_large_file] holds the derived
    column Throughput_StdDev as a float64 column, and in every row the
    derived cell is (Throughput(MB/s) / MeanTime(ms)) * StdDev(ms) of
    that row, in IEEE binary64 arithmetic. *)
Theorem throughput_stddev_is_rowwise_quotient_times_stddev
    (df l : loc) (w w' : World) :
  make_large_file df w = (inr l, w') ->
  exists big ts ms ss vs,
    heap w' !! l = Some big /\
    getitem big "Throughput(MB/s)" = inr {| values := Floats ts; categorical := false |} /\
    getitem big "MeanTime(ms)" = inr {| values := Floats ms; categorical := false |} /\
    getitem big "StdDev(ms)" = inr {| values := Floats ss; categorical := false |} /\
    getitem big "Throughput_StdDev" = inr {| values := Floats vs; categorical := false |} /\
    length vs = Nat.min (Nat.min (length ts) (length ms)) (length ss) /\
    forall i t m s,
      ts !! i = Some t -> ms !! i = Some m -> ss !! i = Some s ->
      vs !! i = Some (PrimFloat.mul (PrimFloat.div t m) s).
Proof.
  rewrite make_large_file_run.
  destruct (heap w !! df) as [d|]; [|discriminate].
  destruct (large_file_mask d) as [e|mask]; [discriminate|]. simpl.
  destruct (throughput_stddev (getitem_mask d mask)) as [e|v] eqn:Ev; [discriminate|].
  intros E. injection E as <- <-.
  destruct (throughput_stddev_inv _ _ Ev) as (ts & ms & ss & Ht & Hm & Hs & ->).
  eexists _, ts, ms, ss, _. simpl.
  split; [apply lookup_after_two|].
  rewrite !getitem_setitem_ne
    by (apply derived_name_ne_throughput || apply derived_name_ne_mean
        || apply derived_name_ne_stddev).
  rewrite getitem_setitem_eq.
  repeat split; try assumption.
  - now rewrite !length_zip_with.
  - intros i t m s Hti Hmi Hsi.
    rewrite !lookup_zip_with, Hti, Hmi, Hsi. reflexivity.
Qed.

Lemma throughput_stddev_is_rowwise_quotient_times_stddev_witness :
  let w := set_heap Demo.empty_world [Demo.frame] in
  exists big ts ms ss vs,
    heap (make_large_file 0%nat w).2 !! 2%nat = Some big /\
    getitem big "Throughput(MB/s)" = inr {| values := Floats ts; categorical := false |} /\
    getitem big "MeanTime(ms)" = inr {| values := Floats ms; categorical := false |} /\
    getitem big "StdDev(ms)" = inr {| values := Floats ss; categorical := false |} /\
    getitem big "Throughput_StdDev" = inr {| values := Floats vs; categorical := false |} /\
    length vs = Nat.min (Nat.min (length ts) (length ms)) (length ss) /\
    forall i t m s,
      ts !! i = Some t -> ms !! i = Some m -> ss !! i = Some s ->
      vs !! i = Some (PrimFloat.mul (PrimFloat.div t m) s).
Proof.
  intros w.
  apply (throughput_stddev_is_rowwise_quotient_times_stddev 0%nat 2%nat w
           (make_large_file 0%nat w).2).
  vm_compute. reflexivity.
Defined.

(** C3. With Filename a column of strings and the three measures float64
    columns, lines 21-22 return normally whatever MeanTime(ms) holds:
    a zero there makes the quotient an IEEE infinity or NaN, not an
    exception.  The derived column is the row-wise expression over the
    selected rows. *)
Theorem zero_mean_time_does_not_raise (df : loc) (w : World) (d : DataFrame)
    (names : list string) (k : bool) (ts ms ss : list float) :
  heap w !! df = Some d ->
  getitem d "Filename" = inr {| values := Strs names; categorical := k |} ->
  getitem d "Throughput(MB/s)" = inr {| values := Floats ts; categorical := false |} ->
  getitem d "MeanTime(ms)" = inr {| values := Floats ms; categorical := false |} ->
  getitem d "StdDev(ms)" = inr {| values := Floats ss; categorical := false |} ->
  exists l w' big,
    make_large_file df w = (inr l, w') /\
    heap w' !! l = Some big /\
    let mask := contains "2_5MB" <$> names in
    getitem big "Throughput_StdDev" =
    inr {| values := Floats (zip_with PrimFloat.mul
                               (zip_with PrimFloat.div (mask_select mask ts)
                                                       (mask_select mask ms))
                               (mask_select mask ss));
           categorical := false |}.
Proof.
  intros Hd Hf Ht Hm Hs. rewrite make_large_file_run, Hd.
  unfold large_file_mask. rewrite Hf. simpl.
  rewrite (throughput_stddev_floats _ (mask_select (contains "2_5MB" <$> names) ts)
             (mask_select (contains "2_5MB" <$> names) ms)
             (mask_select (contains "2_5MB" <$> names) ss))
    by (rewrite getitem_getitem_mask; (rewrite Ht || rewrite Hm || rewrite Hs);
        reflexivity).
  eexists _, _, _. split; [reflexivity|]. simpl.
  split; [apply lookup_after_two|].
  apply getitem_setitem_eq.
Qed.

Lemma zero_mean_time_does_not_raise_witness :
  let w := set_heap Demo.empty_world [Demo.frame] in
  exists l w' big,
    make_large_file 0%nat w = (inr l, w') /\
    heap w' !! l = Some big /\
    let mask := contains "2_5MB" <$> ["1MB"; "1MB"; "2_5MB"; "2_5MB"; "1MB"; "2_5MB"] in
    getitem big "Throughput_StdDev" =
    inr {| values := Floats (zip_with PrimFloat.mul
                               (zip_with PrimFloat.div
                                  (mask_select mask [16; 8; 32; 16; 16; 8]%float)
                                  (mask_select mask [2; 4; 0; 8; 2; 4]%float))
                               (mask_select mask [0.5; 0.5; 0.25; 1; 0.5; 0.5]%float));
           categorical := false |}.
Proof.
  intros w.
  apply (zero_mean_time_does_not_raise 0%nat w Demo.frame
           ["1MB"; "1MB"; "2_5MB"; "2_5MB"; "1MB"; "2_5MB"] false);
    reflexivity.
Defined.

(* The row of the demo frame with MeanTime(ms) = 0 gets an infinite
   Throughput_StdDev. *)
Example zero_mean_time_demo :
  (let* big := match heap (make_large_file 0%nat (set_heap Demo.empty_world [Demo.frame])).2 !! 2%nat
               with Some big => inr big | None => inl DanglingRef end in
   getitem big "Throughput_StdDev") =
  inr {| values := Floats [infinity; 2%float; 1%float]; categorical := false |}.
Proof. vm_compute. reflexivity. Qed.

Section Claims.
Context `{Libs}.
Variable results_dir : string.

(* Chart 1 leaves the store as it was (when it raises before line 21
   completes) or extends it by the filtered frame and its copy. *)
Lemma chart1_store (df : loc) (w : World) :
  heap (chart1 results_dir df w).2 = heap w \/
  exists sub big, heap (chart1 results_dir df w).2 = (heap w ++ [sub]) ++ [big].
Proof.
  unfold chart1, bind. simpl. rewrite make_large_file_run. simpl.
  destruct (heap w !! df) as [d|]; [|now left].
  destruct (large_file_mask d) as [e|mask]; [now left|]. simpl.
  destruct (throughput_stddev (getitem_mask d mask)) as [e|v];
    [right; now eexists _, _|].
  unfold deref. simpl. rewrite lookup_after_two. unfold lift.
  match goal with |- context [add_error_bars ?a ?b ?c ?e ?f] =>
    destruct (add_error_bars a b c e f) as [e'|ax] end;
    simpl; right; now eexists _, _.
Qed.

Lemma chart2_store (df : loc) (w : World) :
  heap (chart2 results_dir df w).2 = heap w.
Proof.
  unfold chart2, bind, deref, lift.
  destruct (heap w !! df) as [d|]; [|reflexivity].
  match goal with |- context [facet_loop ?a ?b ?c ?e] =>
    destruct (facet_loop a b c e) as [e'|axs] end; reflexivity.
Qed.

Lemma chart1_store_at (df : loc) (w : World) :
  heap (chart1 results_dir df w).2 !! df = heap w !! df.
Proof.
  destruct (heap w !! df) as [d|] eqn:Hd.
  - destruct (chart1_store df w) as [->|(sub & big & ->)]; [assumption|].
    rewrite lookup_before_two; [assumption|].
    now apply lookup_lt_Some with d.
  - unfold chart1, bind. simpl. rewrite make_large_file_run. simpl.
    now rewrite Hd.
Qed.

(** C2. With no file at the CSV path, [generate_plots] returns normally
    after printing one line, "Error: <path> not found."; the files,
    the store and the style are as before, so no image is created. *)
Theorem missing_csv_prints_not_found_and_returns (w : World) :
  fs w !! csv_path results_dir = None ->
  generate_plots results_dir w =
  (inr tt,
   {| fs := fs w;
      stdout := stdout w ++ ["Error: " +:+ csv_path results_dir +:+ " not found."];
      heap := heap w;
      rc_style := rc_style w |}).
Proof.
  intros Hnone. unfold generate_plots, bind, path_exists.
  rewrite Hnone. reflexivity.
Qed.

(** C8. The frame [df] refers to is not changed by the first chart:
    after [chart1], whether it returned or raised, the store holds at
    [df] the frame it held before, so the derived column went to
    another object.  The second chart changes no frame at all. *)
Theorem loaded_frame_is_not_mutated (df : loc) (w : World) :
  heap (chart1 results_dir df w).2 !! df = heap w !! df /\
  heap (chart2 results_dir df w).2 = heap w.
Proof.
  split; [apply chart1_store_at | apply chart2_store].
Qed.

(** C10. The Operation of a bar is read off its face colour by a
    two-way test: it is "encrypt" exactly when the colour equals the
    first colour of the two-colour palette, "decrypt" exactly when it
    does not, and nothing else. *)
Theorem hue_is_a_two_way_test_on_colour (palette : string) (bar : Bar)
    (first : Color) (others : list Color) :
  color_palette palette 2 = first :: others ->
  exists hue_val,
    hue_of palette bar = inr hue_val /\
    (hue_val = "encrypt" <-> color_eqb (get_facecolor bar) first = true) /\
    (hue_val = "decrypt" <-> color_eqb (get_facecolor bar) first = false) /\
    (hue_val = "encrypt" \/ hue_val = "decrypt").
Proof.
  intros Hp. unfold hue_of. rewrite Hp. simpl.
  destruct (color_eqb (get_facecolor bar) first);
    eexists; (split; [reflexivity|]); repeat split; intros; try discriminate;
    auto.
Qed.

(* One step of the loop adds at most an error bar: bars, tick labels
   and scale stay. *)
Lemma error_bar_step_keeps (d : DataFrame) (palette err_col : string)
    (capsize : Z) (ax ax' : Axes) (bar : Bar) :
  error_bar_step d palette err_col capsize ax bar = inr ax' ->
  xticklabels ax' = xticklabels ax /\ patches ax' = patches ax /\
  yscale ax' = yscale ax.
Proof.
  unfold error_bar_step.
  destruct (tick_label ax bar) as [e|x_val]; simpl; [discriminate|].
  destruct (hue_of palette bar) as [e|hue_val]; simpl; [discriminate|].
  destruct (select_rows d x_val hue_val) as [e|row]; simpl; [discriminate|].
  destruct (empty row); simpl.
  - intros E. injection E as <-. auto.
  - destruct (getitem row err_col) as [e|col]; simpl; [discriminate|].
    destruct (iloc col 0) as [e|error]; simpl; [discriminate|].
    intros E. injection E as <-. auto.
Qed.

Lemma error_bar_loop_keeps (d : DataFrame) (palette err_col : string)
    (capsize : Z) (bars : list Bar) (ax ax' : Axes) :
  error_bar_loop d palette err_col capsize ax bars = inr ax' ->
  xticklabels ax' = xticklabels ax /\ patches ax' = patches ax /\
  yscale ax' = yscale ax.
Proof.
  unfold error_bar_loop. revert ax.
  induction bars as [|bar bars IH]; intros ax; simpl.
  - intros E. injection E as <-. auto.
  - destruct (error_bar_step d palette err_col capsize ax bar) as [e|ax1] eqn:E1;
      simpl; [discriminate|].
    intros E. apply IH in E. apply error_bar_step_keeps in E1.
    destruct E as (-> & -> & ->). exact E1.
Qed.

Lemma foldlM_app {A B} (f : A -> B -> Res A) (a : A) (l1 l2 : list B) :
  foldlM f a (l1 ++ l2) = let* a' := foldlM f a l1 in foldlM f a' l2.
Proof.
  revert a. induction l1 as [|b l1 IH]; intros a; simpl; [reflexivity|].
  destruct (f a b) as [e|a1]; simpl; [reflexivity | apply IH].
Qed.

Lemma tick_label_ext (ax ax' : Axes) (bar : Bar) :
  xticklabels ax' = xticklabels ax -> tick_label ax' bar = tick_label ax bar.
Proof. intros E. unfold tick_label. now rewrite E. Qed.

(** C4. A bar whose lookup by (Cipher, Operation) selects no row gets no
    error bar and raises nothing: the step returns the axes as they
    were, and the loop over all bars gives what it gives without that
    bar.  This holds for the loop of either chart. *)
Theorem empty_lookup_skips_the_error_bar (d : DataFrame)
    (palette err_col : string) (capsize : Z) (ax : Axes) (bar : Bar)
    (x_val hue_val : string) (row : DataFrame) (before after : list Bar) :
  tick_label ax bar = inr x_val ->
  hue_of palette bar = inr hue_val ->
  select_rows d x_val hue_val = inr row ->
  empty row = true ->
  error_bar_step d palette err_col capsize ax bar = inr ax /\
  error_bar_loop d palette err_col capsize ax (before ++ bar :: after) =
  error_bar_loop d palette err_col capsize ax (before ++ after).
Proof.
  intros Ht Hh Hr He.
  assert (Hstep : forall ax1, xticklabels ax1 = xticklabels ax ->
            error_bar_step d palette err_col capsize ax1 bar = inr ax1).
  { intros ax1 E. unfold error_bar_step.
    rewrite (tick_label_ext _ _ _ E), Ht. simpl. rewrite Hh. simpl.
    rewrite Hr. simpl. now rewrite He. }
  split; [now apply Hstep|].
  unfold error_bar_loop. rewrite !foldlM_app.
  destruct (foldlM (error_bar_step d palette err_col capsize) ax before)
    as [e|ax1] eqn:E1; simpl; [reflexivity|].
  apply error_bar_loop_keeps in E1. destruct E1 as (E1 & _).
  now rewrite (Hstep ax1 E1).
Qed.

(** C6. When several rows match the bar's Cipher and Operation, the
    error bar drawn is that of the first matching row: with [i] the
    first row where the mask of the lookup is True, the step draws the
    error bar with the cell of row [i]; rows after [i] do not enter. *)
Theorem first_matching_row_gives_the_error_bar (d : DataFrame)
    (palette err_col : string) (capsize : Z) (ax : Axes) (bar : Bar)
    (x_val hue_val : string) (cser oser eser : Series) (i : nat) (v : Scalar) :
  frame_wf d ->
  tick_label ax bar = inr x_val ->
  hue_of palette bar = inr hue_val ->
  getitem d "Cipher" = inr cser ->
  getitem d "Operation" = inr oser ->
  getitem d err_col = inr eser ->
  mask_and (series_eq cser x_val) (series_eq oser hue_val) !! i = Some true ->
  (forall j, (j < i)%nat ->
     mask_and (series_eq cser x_val) (series_eq oser hue_val) !! j = Some false) ->
  cells eser !! i = Some v ->
  error_bar_step d palette err_col capsize ax bar =
  inr (errorbar ax (bar_center bar) (get_height bar) v "none" "black" capsize).
Proof.
  intros Hwf Ht Hh Hc Ho He Hi Hlt Hv.
  unfold error_bar_step, select_rows. rewrite Ht. simpl. rewrite Hh. simpl.
  rewrite Hc. simpl. rewrite Ho. simpl.
  set (mask := mask_and (series_eq cser x_val) (series_eq oser hue_val)) in *.
  assert (Hne : empty (getitem_mask d mask) = false).
  { unfold empty. rewrite nrows_getitem_mask.
    pose proof (frame_wf_length _ _ _ Hwf He) as Hlen.
    destruct d as [|[c0 s0] d']; [discriminate|]. simpl in *.
    assert (Hs0 : is_Some (cells s0 !! i)).
    { apply lookup_lt_is_Some. unfold series_length in Hlen. rewrite <- Hlen.
      now apply lookup_lt_Some with v. }
    destruct Hs0 as [v0 Hv0].
    pose proof (mask_select_first i mask (cells s0) Hlt Hi) as Hfirst.
    rewrite Hv0 in Hfirst.
    destruct (mask_select mask (cells s0)); [discriminate | reflexivity]. }
  rewrite Hne. simpl.
  rewrite getitem_getitem_mask, He. simpl.
  unfold iloc. rewrite cells_series_select.
  rewrite (mask_select_first i mask (cells eser) Hlt Hi), Hv. reflexivity.
Qed.

Lemma facet_loop_log (data : DataFrame) (g : FacetGrid) (axs axs' : list Axes)
    (i : nat) :
  facet_loop data g i axs = inr axs' ->
  length axs' = length axs /\ Forall (fun ax => yscale ax = "log") axs'.
Proof.
  revert i axs'. induction axs as [|ax axs IH]; intros i axs'; simpl.
  - intros E. injection E as <-. split; [reflexivity | constructor].
  - destruct (facet_step data g i ax) as [e|ax1] eqn:E1; simpl; [discriminate|].
    destruct (facet_loop data g (S i) axs) as [e|rest] eqn:E2; simpl; [discriminate|].
    intros E. injection E as <-. destruct (IH _ _ E2) as [Hlen Hall].
    split; [simpl; now rewrite Hlen|].
    constructor; [|exact Hall].
    unfold facet_step in E1.
    destruct (py_getitem (col_names g) (Z.of_nat i)) as [e|filename];
      simpl in E1; [discriminate|].
    destruct (getitem data "Filename") as [e|fcol]; simpl in E1; [discriminate|].
    unfold add_error_bars in E1. apply error_bar_loop_keeps in E1.
    destruct E1 as (_ & _ & ->). reflexivity.
Qed.

(* The second chart, from the frame it is given. *)
Lemma chart2_grid (df : loc) (w w' : World) (d : DataFrame) (names : list string) :
  heap w !! df = Some d ->
  getitem d "Filename" = inr {| values := Strs names; categorical := false |} ->
  chart2 results_dir df w = (inr tt, w') ->
  exists g,
    fs w' !! performance_plot_path results_dir = Some (Png (Grid g) 300 "tight") /\
    col_names g = unique names /\
    length (axes g) = length (unique names) /\
    Forall (fun ax => yscale ax = "log") (axes g) /\
    sharey g = false.
Proof.
  intros Hd Hf. unfold chart2, bind, deref, lift. rewrite Hd.
  match goal with |- context [facet_loop ?a ?b ?c ?e] =>
    destruct (facet_loop a b c e) as [e'|axs] eqn:Eloop end; [discriminate|].
  simpl. intros E. injection E as <-. simpl.
  eexists. split; [apply lookup_insert_eq|]. simpl.
  apply facet_loop_log in Eloop. destruct Eloop as [Hlen Hall]. simpl in Hlen.
  assert (Hnames : col_names (catplot (catplot_args d)) = unique names).
  { apply catplot_col_names. exact Hf. }
  repeat split.
  - exact Hnames.
  - now rewrite Hlen, catplot_axes, Hnames.
  - exact Hall.
  - apply catplot_sharey.
Qed.

Lemma load_run (path : string) (w : World) :
  load path w =
  match fs w !! path with
  | None => (inl FileNotFoundError, w)
  | Some f =>
      match read_csv f with
      | inl e => (inl e, w)
      | inr d0 =>
          match getitem d0 "Cipher" with
          | inl e => (inl e, set_heap w (heap w ++ [d0]))
          | inr c =>
              let d1 := setitem d0 "Cipher" (astype_category c) in
              match getitem d1 "Operation" with
              | inl e => (inl e, set_heap w (heap w ++ [d1]))
              | inr o =>
                  (inr (length (heap w)),
                   set_heap w (heap w ++ [setitem d1 "Operation" (astype_category o)]))
              end
          end
      end
  end.
Proof.
  unfold load, pd_read_csv, df_getitem, df_setitem, bind, alloc, deref, store, lift, ret.
  destruct (fs w !! path) as [f|]; [|reflexivity].
  destruct (read_csv f) as [e|d0]; [reflexivity|].
  repeat (progress (simpl; rewrite ?lookup_snoc_new)).
  destruct (getitem d0 "Cipher") as [e|c]; [reflexivity|].
  repeat (progress (simpl; rewrite ?lookup_snoc_new;
                    rewrite ?insert_app_r_alt, ?Nat.sub_diag by lia)).
  destruct (getitem (setitem d0 "Cipher" (astype_category c)) "Operation") as [e|o];
    [reflexivity|].
  repeat (progress (simpl; rewrite ?lookup_snoc_new;
                    rewrite ?insert_app_r_alt, ?Nat.sub_diag by lia)).
  reflexivity.
Qed.


(** C5. When the CSV parses to a frame whose Filename column holds the
    strings [names] and [generate_plots] completes, the image saved as
    the per-file-size chart is a grid with one panel per distinct
    Filename value, in order of first appearance (two panels for
    "1MB" and "2_5MB"), every panel with a log-scaled y axis, and
    drawn with sharey false. *)
Theorem one_log_scaled_panel_per_filename (w w' : World) (file : File)
    (d0 : DataFrame) (names : list string) :
  fs w !! csv_path results_dir = Some file ->
  read_csv file = inr d0 ->
  getitem d0 "Filename" = inr {| values := Strs names; categorical := false |} ->
  generate_plots results_dir w = (inr tt, w') ->
  exists g,
    fs w' !! performance_plot_path results_dir = Some (Png (Grid g) 300 "tight") /\
    col_names g = unique names /\
    length (axes g) = length (unique names) /\
    Forall (fun ax => yscale ax = "log") (axes g) /\
    sharey g = false /\
    NoDup (unique names) /\
    (forall name, name ∈ unique names <-> name ∈ names).
Proof.
  intros Hfile Hread Hf. unfold generate_plots.
  unfold bind at 1. unfold path_exists. rewrite Hfile. simpl.
  unfold bind at 1. rewrite load_run, Hfile, Hread.
  destruct (getitem d0 "Cipher") as [e|c]; [discriminate|]. simpl.
  destruct (getitem (setitem d0 "Cipher" (astype_category c)) "Operation")
    as [e|o]; [discriminate|].
  set (d2 := setitem (setitem d0 "Cipher" (astype_category c)) "Operation"
               (astype_category o)).
  set (w1 := set_heap w (heap w ++ [d2])).
  unfold bind.
  destruct (chart1 results_dir (length (heap w)) w1) as [[e|[]] w2] eqn:E1;
    [discriminate|].
  intros E2.
  assert (Hd2 : heap w2 !! length (heap w) = Some d2).
  { replace w2 with (chart1 results_dir (length (heap w)) w1).2 by now rewrite E1.
    rewrite chart1_store_at. apply lookup_snoc_new. }
  assert (Hf2 : getitem d2 "Filename" =
                inr {| values := Strs names; categorical := false |}).
  { unfold d2. rewrite !getitem_setitem_ne by discriminate. exact Hf. }
  destruct (chart2_grid _ _ _ _ _ Hd2 Hf2 E2) as (g & Hg & Hn & Hl & Hy & Hs).
  exists g. repeat split; try assumption.
  - apply unique_NoDup.
  - apply unique_elem.
  - apply unique_elem.
Qed.

End Claims.

Lemma missing_csv_prints_not_found_and_returns_witness :
  fs Demo.empty_world !! csv_path Demo.dir = None /\
  @generate_plots Demo.libs Demo.dir Demo.empty_world =
  (inr tt,
   {| fs := ∅;
      stdout := ["Error: /bench/results/benchmark_results.csv not found."];
      heap := [];
      rc_style := None |}).
Proof.
  split; [reflexivity|].
  apply (@missing_csv_prints_not_found_and_returns Demo.libs Demo.dir Demo.empty_world).
  reflexivity.
Defined.

Lemma hue_is_a_two_way_test_on_colour_witness :
  exists hue_val,
    @hue_of Demo.libs "viridis" Demo.aes_encrypt_bar = inr hue_val /\
    (hue_val = "encrypt" <->
     color_eqb (get_facecolor Demo.aes_encrypt_bar) Demo.enc_color = true) /\
    (hue_val = "decrypt" <->
     color_eqb (get_facecolor Demo.aes_encrypt_bar) Demo.enc_color = false) /\
    (hue_val = "encrypt" \/ hue_val = "decrypt").
Proof.
  apply (@hue_is_a_two_way_test_on_colour Demo.libs "viridis" Demo.aes_encrypt_bar
           Demo.enc_color [Demo.dec_color]).
  reflexivity.
Defined.

Lemma empty_lookup_skips_the_error_bar_witness :
  @error_bar_step Demo.libs Demo.large_file "viridis" "Throughput_StdDev" 4
    Demo.large_axes Demo.des_encrypt_bar = inr Demo.large_axes /\
  @error_bar_loop Demo.libs Demo.large_file "viridis" "Throughput_StdDev" 4 Demo.large_axes
    ([Demo.aes_encrypt_bar; Demo.aes_decrypt_bar]
       ++ Demo.des_encrypt_bar :: [Demo.des_decrypt_bar]) =
  @error_bar_loop Demo.libs Demo.large_file "viridis" "Throughput_StdDev" 4 Demo.large_axes
    ([Demo.aes_encrypt_bar; Demo.aes_decrypt_bar] ++ [Demo.des_decrypt_bar]).
Proof.
  apply (@empty_lookup_skips_the_error_bar Demo.libs Demo.large_file "viridis"
           "Throughput_StdDev" 4 Demo.large_axes Demo.des_encrypt_bar "DES" "encrypt"
           (getitem_mask Demo.large_file [false; false; false]));
    vm_compute; reflexivity.
Defined.

Lemma frame_wf_demo : frame_wf Demo.frame.
Proof. repeat constructor. Qed.

Lemma first_matching_row_gives_the_error_bar_witness :
  @error_bar_step Demo.libs Demo.frame "plasma" "StdDev(ms)" 3
    Demo.large_axes Demo.aes_decrypt_bar =
  inr (errorbar Demo.large_axes (bar_center Demo.aes_decrypt_bar)
         (get_height Demo.aes_decrypt_bar) (SFloat 0.5%float) "none" "black" 3).
Proof.
  apply (@first_matching_row_gives_the_error_bar Demo.libs Demo.frame "plasma"
           "StdDev(ms)" 3 Demo.large_axes Demo.aes_decrypt_bar "AES" "decrypt"
           {| values := Strs ["AES"; "AES"; "AES"; "AES"; "DES"; "DES"];
              categorical := false |}
           {| values := Strs ["encrypt"; "decrypt"; "encrypt"; "decrypt";
                              "encrypt"; "decrypt"];
              categorical := false |}
           {| values := Floats [0.5; 0.5; 0.25; 1; 0.5; 0.5]%float;
              categorical := false |}
           1%nat (SFloat 0.5%float)).
  - exact frame_wf_demo.
  - vm_compute; reflexivity.
  - reflexivity.
  - reflexivity.
  - reflexivity.
  - reflexivity.
  - reflexivity.
  - intros j Hj. assert (j = 0%nat) as -> by lia. reflexivity.
  - reflexivity.
Defined.

Lemma one_log_scaled_panel_per_filename_witness :
  exists g,
    fs (@generate_plots Demo.libs Demo.dir Demo.world).2
      !! performance_plot_path Demo.dir = Some (Png (Grid g) 300 "tight") /\
    col_names g = unique Demo.names /\
    length (axes g) = length (unique Demo.names) /\
    Forall (fun ax => yscale ax = "log") (axes g) /\
    sharey g = false /\
    NoDup (unique Demo.names) /\
    (forall name, name ∈ unique Demo.names <-> name ∈ Demo.names).
Proof.
  apply (@one_log_scaled_panel_per_filename Demo.libs Demo.dir Demo.world
           (@generate_plots Demo.libs Demo.dir Demo.world).2
           (Raw "csv") Demo.frame Demo.names).
  - reflexivity.
  - reflexivity.
  - reflexivity.
  - vm_compute. reflexivity.
Defined.

(* The demo CSV has the file names "1MB" and "2_5MB": two panels. *)
Example two_panels_demo :
  unique Demo.names = ["1MB"; "2_5MB"] /\
  match fs (@generate_plots Demo.libs Demo.dir Demo.world).2
          !! performance_plot_path Demo.dir with
  | Some (Png (Grid g) _ _) =>
      Some (col_names g, length (axes g), yscale <$> axes g, sharey g)
  | _ => None
  end = Some (["1MB"; "2_5MB"], 2%nat, ["log"; "log"], false).
Proof. split; vm_compute; reflexivity. Qed.

(* Item assignment does change the object it is applied to: had line
   22 been run on [df] itself, the loaded frame would have gained the
   column. *)
Example in_place_assignment_changes_its_target :
  let w := set_heap Demo.empty_world [Demo.frame] in
  (derive_throughput_stddev 0%nat w).1 = inr tt /\
  heap (derive_throughput_stddev 0%nat w).2 !! 0%nat <> heap w !! 0%nat.
Proof. split; [reflexivity | vm_compute; discriminate]. Qed.

Lemma loaded_frame_is_not_mutated_witness :
  let w := set_heap Demo.empty_world [Demo.frame] in
  heap (@chart1 Demo.libs Demo.dir 0%nat w).2 !! 0%nat = Some Demo.frame /\
  heap (@chart2 Demo.libs Demo.dir 0%nat w).2 = [Demo.frame].
Proof.
  intros w. exact (@loaded_frame_is_not_mutated Demo.libs Demo.dir 0%nat w).
Defined.

(* On the demo frame the first chart draws three error bars for four
   bars: DES was never run in the encrypt direction on the 2.5MB file. *)
Example three_error_bars_demo :
  (let* ax := @add_error_bars Demo.libs Demo.large_file "viridis" "Throughput_StdDev" 4
                Demo.large_axes in
   inr (length (patches ax), eb_yerr <$> errorbars ax)) =
  inr (4%nat, [SFloat infinity; SFloat 2%float; SFloat 1%float]).
Proof. vm_compute. reflexivity. Qed.

(** ** Beyond the claims: paths, files and printed lines *)

Lemma append_inj_l (a x y : string) : a +:+ x = a +:+ y -> x = y.
Proof.
  induction a as [|c a IH]; simpl; [trivial|].
  intros E. injection E as E. now apply IH.
Qed.

(* A relative name is appended to the directory after a separator that
   depends on the directory only. *)
Lemma path_join_relative (a b : string) :
  starts_with "/" b = false ->
  path_join a b =
  a +:+ (if (String.length a =? 0)%nat || ends_with "/" a then "" else "/") +:+ b.
Proof.
  intros Hb. unfold path_join. rewrite Hb.
  destruct ((String.length a =? 0)%nat || ends_with "/" a); reflexivity.
Qed.

Lemma path_join_inj (a b1 b2 : string) :
  starts_with "/" b1 = false -> starts_with "/" b2 = false ->
  path_join a b1 = path_join a b2 -> b1 = b2.
Proof.
  intros H1 H2. rewrite !path_join_relative by assumption.
  intros E. apply append_inj_l in E.
  destruct ((String.length a =? 0)%nat || ends_with "/" a); simpl in E;
    [exact E | now injection E].
Qed.

Section Outcomes.
Context `{Libs}.
Variable results_dir : string.

Lemma csv_path_ne_throughput :
  csv_path results_dir <> throughput_plot_path results_dir.
Proof.
  intros E. apply path_join_inj in E; [discriminate | reflexivity | reflexivity].
Qed.

Lemma csv_path_ne_performance :
  csv_path results_dir <> performance_plot_path results_dir.
Proof.
  intros E. apply path_join_inj in E; [discriminate | reflexivity | reflexivity].
Qed.

Lemma throughput_ne_performance :
  throughput_plot_path results_dir <> performance_plot_path results_dir.
Proof.
  intros E. apply path_join_inj in E; [discriminate | reflexivity | reflexivity].
Qed.

(* Loading touches the store only. *)
Lemma load_leaves_files (path : string) (w : World) :
  fs (load path w).2 = fs w /\ stdout (load path w).2 = stdout w.
Proof.
  rewrite load_run.
  destruct (fs w !! path) as [f|]; [|split; reflexivity].
  destruct (read_csv f) as [e|d0]; [split; reflexivity|].
  destruct (getitem d0 "Cipher") as [e|c]; [split; reflexivity|]. simpl.
  destruct (getitem (setitem d0 "Cipher" (astype_category c)) "Operation");
    split; reflexivity.
Qed.

(* Chart 1 either raises with files and output as they were, or returns
   having written its image and printed its line. *)
Lemma chart1_outcome (df : loc) (w : World) :
  (exists e, (chart1 results_dir df w).1 = inl e /\
     fs (chart1 results_dir df w).2 = fs w /\
     stdout (chart1 results_dir df w).2 = stdout w) \/
  ((chart1 results_dir df w).1 = inr tt /\
   exists ax size,
     fs (chart1 results_dir df w).2 =
       <[throughput_plot_path results_dir := Png (Single ax size) 300 "tight"]> (fs w) /\
     stdout (chart1 results_dir df w).2 = stdout w ++ [throughput_line results_dir]).
Proof.
  unfold chart1, bind. simpl. rewrite make_large_file_run. simpl.
  destruct (heap w !! df) as [d|]; [|left; now eexists].
  destruct (large_file_mask d) as [e|mask]; [left; now eexists|]. simpl.
  destruct (throughput_stddev (getitem_mask d mask)) as [e|v]; [left; now eexists|].
  unfold deref. simpl. rewrite lookup_after_two. unfold lift.
  match goal with |- context [add_error_bars ?a ?b ?c ?e ?f] =>
    destruct (add_error_bars a b c e f) as [e'|ax] end; simpl.
  - left. now eexists.
  - right. split; [reflexivity|]. now eexists _, _.
Qed.

Lemma chart2_outcome (df : loc) (w : World) :
  (exists e, (chart2 results_dir df w).1 = inl e /\
     fs (chart2 results_dir df w).2 = fs w /\
     stdout (chart2 results_dir df w).2 = stdout w) \/
  ((chart2 results_dir df w).1 = inr tt /\
   exists g,
     fs (chart2 results_dir df w).2 =
       <[performance_plot_path results_dir := Png (Grid g) 300 "tight"]> (fs w) /\
     stdout (chart2 results_dir df w).2 = stdout w ++ [performance_line results_dir]).
Proof.
  unfold chart2, bind, deref, lift.
  destruct (heap w !! df) as [d|]; [|left; now eexists].
  match goal with |- context [facet_loop ?a ?b ?c ?e] =>
    destruct (facet_loop a b c e) as [e'|axs] end; simpl.
  - left. now eexists.
  - right. split; [reflexivity|]. now eexists.
Qed.

(* All the ways a run on an existing CSV can end. *)
Lemma generate_plots_outcome (w : World) (file : File) (r : Res unit * World) :
  fs w !! csv_path results_dir = Some file ->
  generate_plots results_dir w = r ->
  (exists e, r.1 = inl e /\ fs r.2 = fs w /\ stdout r.2 = stdout w) \/
  (exists e ax size, r.1 = inl e /\
     fs r.2 = <[throughput_plot_path results_dir := Png (Single ax size) 300 "tight"]> (fs w) /\
     stdout r.2 = stdout w ++ [throughput_line results_dir]) \/
  (r.1 = inr tt /\ exists ax size g,
     fs r.2 = <[performance_plot_path results_dir := Png (Grid g) 300 "tight"]>
                (<[throughput_plot_path results_dir := Png (Single ax size) 300 "tight"]> (fs w)) /\
     stdout r.2 = stdout w ++ [throughput_line results_dir; performance_line results_dir]).
Proof.
  intros Hfile. unfold generate_plots, bind, path_exists. rewrite Hfile. simpl.
  generalize (load_leaves_files (csv_path results_dir) w).
  destruct (load (csv_path results_dir) w) as [[e|df] w1]; simpl.
  - intros [Hfs0 Hout0] <-. simpl.
    left. eexists. split; [reflexivity|]. split; assumption.
  - generalize (chart1_outcome df w1).
    destruct (chart1 results_dir df w1) as [r1 w2]; simpl.
    intros [(e & -> & Hfs & Hout)|(-> & ax & size & Hfs & Hout)] [Hfs0 Hout0].
    + intros <-. simpl. left. eexists. split; [reflexivity|]. split; congruence.
    + generalize (chart2_outcome df w2).
      destruct (chart2 results_dir df w2) as [r2 w3]; simpl.
      intros [(e & -> & Hfs2 & Hout2)|(-> & g & Hfs2 & Hout2)] <-; simpl.
      * right. left. eexists _, ax, size. split; [reflexivity|]. split; congruence.
      * right. right. split; [reflexivity|]. exists ax, size, g.
        split; [congruence|]. rewrite Hout2, Hout, Hout0, <- app_assoc. reflexivity.
Qed.

(** X1. Whatever happens, a run changes no file other than the two
    images: every other path, the CSV among them, holds afterwards what
    it held before. *)
Theorem only_the_two_images_are_written (w : World) :
  (forall path,
     path <> throughput_plot_path results_dir ->
     path <> performance_plot_path results_dir ->
     fs (generate_plots results_dir w).2 !! path = fs w !! path) /\
  fs (generate_plots results_dir w).2 !! csv_path results_dir =
  fs w !! csv_path results_dir.
Proof.
  assert (Hall : forall path,
     path <> throughput_plot_path results_dir ->
     path <> performance_plot_path results_dir ->
     fs (generate_plots results_dir w).2 !! path = fs w !! path).
  { intros path Ht Hp.
    destruct (fs w !! csv_path results_dir) as [file|] eqn:Hfile.
    - destruct (generate_plots_outcome w file _ Hfile eq_refl)
        as [(e & _ & -> & _)|[(e & ax & size & _ & -> & _)|(_ & ax & size & g & -> & _)]].
      + reflexivity.
      + now rewrite lookup_insert_ne.
      + now rewrite !lookup_insert_ne.
    - unfold generate_plots, bind, path_exists. now rewrite Hfile. }
  split; [exact Hall|].
  apply Hall; [apply csv_path_ne_throughput | apply csv_path_ne_performance].
Qed.

(** X2. A run on an existing CSV that returns has written exactly the
    two images, the throughput chart first, and printed exactly the two
    "Saved ..." lines, in that order, after what was printed before. *)
Theorem completed_run_writes_two_images_and_prints_two_lines
    (w w' : World) (file : File) :
  fs w !! csv_path results_dir = Some file ->
  generate_plots results_dir w = (inr tt, w') ->
  exists ax size g,
    fs w' = <[performance_plot_path results_dir := Png (Grid g) 300 "tight"]>
              (<[throughput_plot_path results_dir := Png (Single ax size) 300 "tight"]>
                 (fs w)) /\
    stdout w' = stdout w ++ [throughput_line results_dir; performance_line results_dir].
Proof.
  intros Hfile Hrun.
  destruct (generate_plots_outcome w file _ Hfile Hrun)
    as [(e & He & _)|[(e & ax & size & He & _)|(_ & ax & size & g & Hfs & Hout)]];
    [discriminate | discriminate |].
  now exists ax, size, g.
Qed.

(** X3. A run on an existing CSV that raises has printed no error line
    and leaves one of two states behind: nothing written and nothing
    printed, or the throughput image written and its line printed (the
    second chart failed after the first was saved).  The performance
    image is not written. *)
Theorem failed_run_leaves_at_most_the_first_image
    (w w' : World) (file : File) (e : Exn) :
  fs w !! csv_path results_dir = Some file ->
  generate_plots results_dir w = (inl e, w') ->
  ((fs w' = fs w /\ stdout w' = stdout w) \/
   (exists ax size,
      fs w' = <[throughput_plot_path results_dir := Png (Single ax size) 300 "tight"]>
                (fs w) /\
      stdout w' = stdout w ++ [throughput_line results_dir])) /\
  fs w' !! performance_plot_path results_dir =
  fs w !! performance_plot_path results_dir.
Proof.
  intros Hfile Hrun.
  destruct (generate_plots_outcome w file _ Hfile Hrun)
    as [(e1 & _ & Hfs & Hout)|[(e1 & ax & size & _ & Hfs & Hout)|(He & _)]];
    simpl in *; [| |discriminate].
  - split; [now left | now rewrite Hfs].
  - split; [right; now exists ax, size|].
    rewrite Hfs. apply lookup_insert_ne, throughput_ne_performance.
Qed.

End Outcomes.

Lemma completed_run_writes_two_images_and_prints_two_lines_witness :
  exists ax size g,
    fs (@generate_plots Demo.libs Demo.dir Demo.world).2 =
      <[performance_plot_path Demo.dir := Png (Grid g) 300 "tight"]>
        (<[throughput_plot_path Demo.dir := Png (Single ax size) 300 "tight"]>
           (fs Demo.world)) /\
    stdout (@generate_plots Demo.libs Demo.dir Demo.world).2 =
      stdout Demo.world ++ [throughput_line Demo.dir; performance_line Demo.dir].
Proof.
  apply (@completed_run_writes_two_images_and_prints_two_lines Demo.libs Demo.dir
           Demo.world (@generate_plots Demo.libs Demo.dir Demo.world).2 (Raw "csv")).
  - reflexivity.
  - vm_compute. reflexivity.
Defined.

Lemma failed_run_leaves_at_most_the_first_image_witness :
  let w' := (@generate_plots DemoStray.libs Demo.dir Demo.world).2 in
  ((fs w' = fs Demo.world /\ stdout w' = stdout Demo.world) \/
   (exists ax size,
      fs w' = <[throughput_plot_path Demo.dir := Png (Single ax size) 300 "tight"]>
                (fs Demo.world) /\
      stdout w' = stdout Demo.world ++ [throughput_line Demo.dir])) /\
  fs w' !! performance_plot_path Demo.dir =
  fs Demo.world !! performance_plot_path Demo.dir.
Proof.
  intros w'.
  apply (@failed_run_leaves_at_most_the_first_image DemoStray.libs Demo.dir
           Demo.world w' (Raw "csv") IndexError).
  - reflexivity.
  - vm_compute. reflexivity.
Defined.

(* With the stray bar the run ends in the second state: IndexError, the
   throughput image on disk, one line printed. *)
Example stray_bar_leaves_first_image :
  let r := @generate_plots DemoStray.libs Demo.dir Demo.world in
  r.1 = inl IndexError /\
  stdout r.2 = [throughput_line Demo.dir] /\
  (exists f, fs r.2 !! throughput_plot_path Demo.dir = Some f) /\
  fs r.2 !! performance_plot_path Demo.dir = None.
Proof.
  vm_compute. repeat split. now eexists.
Qed.

(** ** Beyond the claims: the error-bar loops *)

Lemma mask_select_nil {A} (mask : list bool) : mask_select mask (@nil A) = [].
Proof. destruct mask as [|[|] mask]; reflexivity. Qed.


Lemma mask_select_length {A B} (mask : list bool) (l1 : list A) (l2 : list B) :
  length l1 = length l2 ->
  length (mask_select mask l1) = length (mask_select mask l2).
Proof.
  revert l1 l2. induction mask as [|b mask IH]; intros [|x l1] [|y l2]; simpl;
    try reflexivity; try discriminate.
  intros E. injection E as E. destruct b; simpl; now rewrite (IH l1 l2 E).
Qed.

Lemma color_eqb_length (a b : Color) : color_eqb a b = true -> length a = length b.
Proof.
  revert b. induction a as [|x a IH]; intros [|y b]; simpl; try discriminate;
    [reflexivity|].
  rewrite andb_true_iff. intros [_ E]. now rewrite (IH b E).
Qed.

Section Loops.
Context `{Libs}.



(** X5. On a frame without rows (no file name had the marker, or a CSV
    with a header only) a loop that returns has drawn no error bar: the
    axes are as the library drew them. *)
Theorem no_rows_no_error_bars (d : DataFrame) (palette err_col : string)
    (capsize : Z) (bars : list Bar) (ax ax' : Axes) :
  nrows d = 0%nat ->
  error_bar_loop d palette err_col capsize ax bars = inr ax' ->
  ax' = ax.
Proof.
  intros Hrows. unfold error_bar_loop. revert ax.
  induction bars as [|bar bars IH]; intros ax; simpl.
  - intros E. now injection E.
  - destruct (error_bar_step d palette err_col capsize ax bar) as [e|ax1] eqn:E1;
      simpl; [discriminate|].
    assert (ax1 = ax) as ->; [|apply IH].
    revert E1. unfold error_bar_step, select_rows.
    destruct (tick_label ax bar) as [e|x_val]; simpl; [discriminate|].
    destruct (hue_of palette bar) as [e|hue_val]; simpl; [discriminate|].
    destruct (getitem d "Cipher") as [e|c]; simpl; [discriminate|].
    destruct (getitem d "Operation") as [e|o]; simpl; [discriminate|].
    unfold empty. rewrite nrows_getitem_mask.
    destruct d as [|[c0 s0] d']; simpl in *.
    + intros E. now injection E.
    + unfold series_length in Hrows. apply length_zero_iff_nil in Hrows.
      rewrite Hrows, mask_select_nil. simpl. intros E. now injection E.
Qed.



(** X7. A face colour with another number of channels than the first
    palette colour (an RGBA tuple against an RGB tuple) is never equal
    to it: such a bar is taken for a "decrypt" bar, whatever it shows. *)
Theorem channel_count_mismatch_reads_as_decrypt (palette : string) (bar : Bar)
    (first : Color) (others : list Color) :
  color_palette palette 2 = first :: others ->
  length (get_facecolor bar) <> length first ->
  hue_of palette bar = inr "decrypt".
Proof.
  intros Hp Hlen. unfold hue_of. rewrite Hp. simpl.
  destruct (color_eqb (get_facecolor bar) first) eqn:E; [|reflexivity].
  apply color_eqb_length in E. contradiction.
Qed.

(** X8. In the second chart a panel looks its rows up by equality with
    the panel's file name, not by containment: the frame searched for
    the bars of panel [i] holds, in every column and in order, the cells
    of exactly the rows whose Filename is [col_names[i]]. *)
Theorem panel_rows_have_exactly_the_panel_file_name (data : DataFrame)
    (g : FacetGrid) (i : nat) (ax : Axes) (filename : string)
    (names : list string) (k : bool) :
  py_getitem (col_names g) (Z.of_nat i) = inr filename ->
  getitem data "Filename" = inr {| values := Strs names; categorical := k |} ->
  exists sub_df,
    facet_step data g i ax =
      add_error_bars sub_df "plasma" "StdDev(ms)" 3 (set_yscale ax "log") /\
    forall col s, getitem data col = inr s ->
      exists s', getitem sub_df col = inr s' /\
        cells s' = (filter (fun p => p.1 = filename) (zip names (cells s))).*2.
Proof.
  intros Hname Hf. unfold facet_step. rewrite Hname, Hf. simpl.
  eexists. split; [reflexivity|].
  intros col s Hs. rewrite getitem_getitem_mask, Hs.
  eexists. split; [reflexivity|].
  rewrite cells_series_select. unfold series_eq. simpl.
  rewrite (mask_select_by (fun x => String.eqb x filename)).
  f_equal. apply list_filter_iff. intros [n c]. simpl. apply String.eqb_eq.
Qed.

End Loops.

(** ** Beyond the claims: the frames of lines 14-22 *)

Lemma getitem_mask_names (d : DataFrame) (mask : list bool) :
  (getitem_mask d mask).*1 = d.*1.
Proof.
  unfold getitem_mask. induction d as [|[c s] d IH]; simpl; [reflexivity|].
  f_equal. exact IH.
Qed.

Lemma getitem_names (d : DataFrame) (col : string) :
  (exists s, getitem d col = inr s) <-> col ∈ d.*1.
Proof.
  induction d as [|[c s] d IH]; simpl.
  - split; [intros [s Hs]; discriminate | intros Hin; now apply elem_of_nil in Hin].
  - rewrite elem_of_cons. destruct (String.eqb c col) eqn:E.
    + apply String.eqb_eq in E. subst. split; [now left | intros _; now exists s].
    + apply String.eqb_neq in E. rewrite IH. split; [now right|].
      intros [->|Hin]; [contradiction | exact Hin].
Qed.

Lemma getitem_error (d : DataFrame) (col : string) (e : Exn) :
  getitem d col = inl e -> e = KeyError col.
Proof.
  induction d as [|[c s] d IH]; simpl.
  - intros E. now injection E.
  - destruct (String.eqb c col); [discriminate | exact IH].
Qed.

Lemma setitem_names (d : DataFrame) (col : string) (s : Series) :
  (setitem d col s).*1 = if decide (col ∈ d.*1) then d.*1 else d.*1 ++ [col].
Proof.
  induction d as [|[c s0] d IH].
  - rewrite decide_False; [reflexivity | apply not_elem_of_nil].
  - simpl setitem. destruct (String.eqb c col) eqn:E.
    + apply String.eqb_eq in E. subst. rewrite decide_True; [reflexivity|].
      rewrite fmap_cons. now left.
    + apply String.eqb_neq in E. rewrite !fmap_cons, IH. simpl.
      destruct (decide (col ∈ d.*1)) as [Hin|Hn].
      * rewrite decide_True; [reflexivity | now right].
      * rewrite decide_False; [reflexivity|].
        rewrite elem_of_cons. intros [->|Hin]; contradiction.
Qed.

Lemma setitem_lengths (d : DataFrame) (col : string) (s : Series) (n : nat) :
  Forall (fun cs => series_length cs.2 = n) d ->
  series_length s = n ->
  Forall (fun cs => series_length cs.2 = n) (setitem d col s).
Proof.
  intros Hd Hs. induction d as [|[c s0] d IH]; simpl.
  - now repeat constructor.
  - inversion Hd as [|? ? Hhead Htail]; subst.
    destruct (String.eqb c col); constructor; auto.
Qed.

Lemma frame_wf_setitem (d : DataFrame) (col : string) (s : Series) :
  frame_wf d -> d <> [] -> series_length s = nrows d ->
  frame_wf (setitem d col s) /\ nrows (setitem d col s) = nrows d.
Proof.
  intros Hwf Hne Hs.
  assert (Hrows : nrows (setitem d col s) = nrows d).
  { destruct d as [|[c s0] d']; [contradiction|]. simpl.
    destruct (String.eqb c col); simpl; [exact Hs | reflexivity]. }
  split; [|exact Hrows].
  unfold frame_wf. rewrite Hrows. now apply setitem_lengths.
Qed.

Lemma frame_wf_getitem_mask (d : DataFrame) (mask : list bool) :
  frame_wf d -> frame_wf (getitem_mask d mask).
Proof.
  intros Hwf. unfold frame_wf. rewrite nrows_getitem_mask.
  destruct d as [|[c0 s0] d']; [constructor|].
  unfold frame_wf in Hwf. simpl nrows in Hwf.
  unfold getitem_mask. apply Forall_fmap.
  eapply Forall_impl; [exact Hwf|].
  intros [c s] Hlen. simpl in *. unfold series_length in *.
  rewrite cells_series_select. now apply mask_select_length.
Qed.

Lemma mask_select_count {A B} (f : B -> bool) (keys : list B) (l : list A) :
  length l = length keys ->
  length (mask_select (f <$> keys) l) = length (filter (fun k => f k = true) keys).
Proof.
  revert l. induction keys as [|k keys IH]; intros [|x l]; simpl;
    try reflexivity; try discriminate.
  intros E. injection E as E. rewrite filter_cons. destruct (f k); simpl.
  - destruct (decide (true = true)); [|done]. simpl. now rewrite IH.
  - destruct (decide (false = true)); [done|]. now apply IH.
Qed.



(** X9. Line 22 gives [df_large_file] the columns of the filtered frame
    and one more: Throughput_StdDev is appended as the last column, or
    takes the place of a column of that name when the CSV already has
    one; every other column is that of the filtered frame. *)
Theorem derived_column_is_appended_or_replaced (df l : loc) (w w' : World)
    (d : DataFrame) :
  heap w !! df = Some d ->
  make_large_file df w = (inr l, w') ->
  exists mask big,
    large_file_mask d = inr mask /\
    heap w' !! l = Some big /\
    big.*1 = (if decide ("Throughput_StdDev" ∈ d.*1) then d.*1
              else d.*1 ++ ["Throughput_StdDev"]) /\
    forall col, col <> "Throughput_StdDev" ->
      getitem big col = getitem (getitem_mask d mask) col.
Proof.
  intros Hd. rewrite make_large_file_run, Hd.
  destruct (large_file_mask d) as [e|mask]; [discriminate|]. simpl.
  destruct (throughput_stddev (getitem_mask d mask)) as [e|v]; [discriminate|].
  intros E. injection E as <- <-.
  eexists mask, _. split; [reflexivity|]. simpl.
  split; [apply lookup_after_two|].
  split.
  - now rewrite setitem_names, getitem_mask_names.
  - intros col Hne. apply getitem_setitem_ne. congruence.
Qed.

(** X10. Boolean indexing and the assignment of line 22 keep the frame
    rectangular: when the loaded frame has columns of one length, so
    has [df_large_file]; it has one row per file name containing the
    marker, and the derived column has one cell per row. *)
Theorem large_file_frame_is_rectangular (df l : loc) (w w' : World)
    (d : DataFrame) (names : list string) (k : bool) :
  heap w !! df = Some d ->
  frame_wf d ->
  getitem d "Filename" = inr {| values := Strs names; categorical := k |} ->
  make_large_file df w = (inr l, w') ->
  exists big vs,
    heap w' !! l = Some big /\
    frame_wf big /\
    nrows big = length (filter (fun name => contains "2_5MB" name = true) names) /\
    getitem big "Throughput_StdDev" = inr {| values := Floats vs; categorical := false |} /\
    length vs = nrows big.
Proof.
  intros Hd Hwf Hf. rewrite make_large_file_run, Hd.
  unfold large_file_mask. rewrite Hf. simpl.
  set (mask := contains "2_5MB" <$> names).
  set (sub := getitem_mask d mask).
  destruct (throughput_stddev sub) as [e|v] eqn:Ev; [discriminate|].
  intros E. injection E as <- <-.
  destruct (throughput_stddev_inv _ _ Ev) as (ts & ms & ss & Ht & Hm & Hs & ->).
  pose proof (frame_wf_getitem_mask d mask Hwf) as Hsub. fold sub in Hsub.
  pose proof (frame_wf_length _ _ _ Hsub Ht) as Hlt.
  pose proof (frame_wf_length _ _ _ Hsub Hm) as Hlm.
  pose proof (frame_wf_length _ _ _ Hsub Hs) as Hls.
  unfold series_length, cells in Hlt, Hlm, Hls. simpl in Hlt, Hlm, Hls.
  rewrite length_fmap in Hlt, Hlm, Hls.
  assert (Hvs : length (zip_with PrimFloat.mul (zip_with PrimFloat.div ts ms) ss)
                = nrows sub).
  { rewrite !length_zip_with. lia. }
  assert (Hne : sub <> []).
  { intros E. rewrite E in Ht. discriminate. }
  destruct (frame_wf_setitem sub "Throughput_StdDev"
              {| values := Floats (zip_with PrimFloat.mul (zip_with PrimFloat.div ts ms) ss);
                 categorical := false |} Hsub Hne) as [Hbig Hrows].
  { unfold series_length, cells. simpl. now rewrite length_fmap. }
  eexists _, _. simpl. split; [apply lookup_after_two|].
  split; [exact Hbig|]. rewrite Hrows.
  split; [|split; [apply getitem_setitem_eq | exact Hvs]].
  unfold sub. rewrite nrows_getitem_mask.
  pose proof (frame_wf_length _ _ _ Hwf Hf) as Hlf.
  destruct d as [|[c0 s0] d']; [discriminate|]. simpl in Hlf.
  unfold mask. apply mask_select_count.
  unfold series_length in Hlf. rewrite <- Hlf. unfold cells. simpl.
  now rewrite length_fmap.
Qed.

Section Loading.
Context `{Libs}.
Variable results_dir : string.

(** X11. Loading changes dtypes only: when lines 14-16 return, the new
    frame is a fresh object after the frames already in the store, it
    has the parsed frame's columns in their order, and every column has
    the parsed cells; Cipher and Operation are categorical and every
    other column keeps its dtype. *)
Theorem loading_changes_dtypes_only (path : string) (df : loc) (w w' : World) :
  load path w = (inr df, w') ->
  exists file d0 d,
    fs w !! path = Some file /\ read_csv file = inr d0 /\
    df = length (heap w) /\ heap w' = heap w ++ [d] /\
    d.*1 = d0.*1 /\
    forall col s, getitem d0 col = inr s ->
      getitem d col =
      inr {| values := values s;
             categorical := if String.eqb col "Cipher" || String.eqb col "Operation"
                            then true else categorical s |}.
Proof.
  rewrite load_run.
  destruct (fs w !! path) as [file|]; [|discriminate].
  destruct (read_csv file) as [e|d0] eqn:Hread; [discriminate|].
  destruct (getitem d0 "Cipher") as [e|c] eqn:Hc; [discriminate|]. simpl.
  destruct (getitem (setitem d0 "Cipher" (astype_category c)) "Operation")
    as [e|o] eqn:Ho; [discriminate|].
  intros E. injection E as <- <-.
  rewrite getitem_setitem_ne in Ho by discriminate.
  exists file, d0, (setitem (setitem d0 "Cipher" (astype_category c)) "Operation"
                      (astype_category o)).
  split; [reflexivity|]. split; [exact Hread|].
  split; [reflexivity|]. split; [reflexivity|]. split.
  - rewrite !setitem_names.
    destruct (decide ("Cipher" ∈ d0.*1)) as [_|Hn].
    + destruct (decide ("Operation" ∈ d0.*1)) as [_|Hn]; [reflexivity|].
      exfalso. apply Hn. apply getitem_names. now exists o.
    + exfalso. apply Hn. apply getitem_names. now exists c.
  - intros col s Hs.
    destruct (String.eqb col "Operation") eqn:Eo.
    + apply String.eqb_eq in Eo. subst col. rewrite getitem_setitem_eq.
      rewrite orb_true_r. rewrite Hs in Ho. injection Ho as ->. reflexivity.
    + apply String.eqb_neq in Eo.
      rewrite getitem_setitem_ne by congruence. rewrite orb_false_r.
      destruct (String.eqb col "Cipher") eqn:Ec.
      * apply String.eqb_eq in Ec. subst col. rewrite getitem_setitem_eq.
        rewrite Hs in Hc. injection Hc as ->. reflexivity.
      * apply String.eqb_neq in Ec.
        rewrite getitem_setitem_ne by congruence. rewrite Hs. now destruct s.
Qed.



End Loading.

(** ** Beyond the claims: the tick index *)

Lemma round_half_even_nearest (m : positive) (e : Z) :
  e < 0 ->
  2 * Z.abs (round_half_even m e * 2 ^ (- e) - Z.pos m) <= 2 ^ (- e) /\
  (2 * Z.abs (round_half_even m e * 2 ^ (- e) - Z.pos m) = 2 ^ (- e) ->
   Z.even (round_half_even m e) = true).
Proof.
  intros He. unfold round_half_even.
  destruct (0 <=? e) eqn:E0; [apply Z.leb_le in E0; lia|].
  set (d := 2 ^ (- e)).
  assert (Hd : 0 < d) by (apply Z.pow_pos_nonneg; lia).
  pose proof (Z.div_mod (Z.pos m) d ltac:(lia)) as Hdm.
  pose proof (Z.mod_pos_bound (Z.pos m) d Hd) as Hr.
  set (q := Z.pos m / d) in *. set (r := Z.pos m mod d) in *.
  destruct (2 * r ?= d) eqn:C.
  - apply Z.compare_eq in C.
    destruct (Z.even q) eqn:Ev.
    + split; [|intros _; exact Ev].
      replace (q * d - Z.pos m) with (- r) by lia. rewrite Z.abs_opp, Z.abs_eq; lia.
    + split.
      * replace ((q + 1) * d - Z.pos m) with (d - r) by lia. rewrite Z.abs_eq; lia.
      * intros _. replace (q + 1) with (Z.succ q) by lia.
        rewrite Z.even_succ, <- Z.negb_even, Ev. reflexivity.
  - rewrite Z.compare_lt_iff in C.
    replace (q * d - Z.pos m) with (- r) by lia. rewrite Z.abs_opp, Z.abs_eq by lia.
    split; lia.
  - rewrite Z.compare_gt_iff in C.
    replace ((q + 1) * d - Z.pos m) with (d - r) by lia. rewrite Z.abs_eq by lia.
    split; lia.
Qed.

(** X13. The tick index of a bar is the integer nearest to the bar's
    centre x + width / 2, and the even one of the two when the centre
    lies half way: for a finite centre (-1)^s * m * 2^e the index z is
    the centre itself when e >= 0, and otherwise is within one half of
    it, an exact half only with z even.  The label is taken at that
    index. *)
Theorem tick_index_is_the_nearest_integer (ax : Axes) (bar : Bar)
    (s : bool) (m : positive) (e : Z) :
  Prim2SF (bar_center bar) = S754_finite s m e ->
  exists z,
    py_round (bar_center bar) = inr z /\
    tick_label ax bar = py_getitem (xticklabels ax) z /\
    let v := if s then - Z.pos m else Z.pos m in
    (0 <= e -> z = v * 2 ^ e) /\
    (e < 0 ->
     2 * Z.abs (z * 2 ^ (- e) - v) <= 2 ^ (- e) /\
     (2 * Z.abs (z * 2 ^ (- e) - v) = 2 ^ (- e) -> Z.even z = true)).
Proof.
  intros Hf. unfold tick_label, py_round. rewrite Hf. simpl.
  eexists. split; [reflexivity|]. split; [reflexivity|]. split.
  - intros He. unfold round_half_even.
    destruct (0 <=? e) eqn:E0; [|apply Z.leb_gt in E0; lia].
    destruct s; lia.
  - intros He. destruct (round_half_even_nearest m e He) as [Hnear Htie].
    destruct s; [|split; assumption].
    replace (- round_half_even m e * 2 ^ (- e) - - Z.pos m)
      with (- (round_half_even m e * 2 ^ (- e) - Z.pos m)) by lia.
    rewrite Z.abs_opp, Z.even_opp. split; assumption.
Qed.

Lemma tick_index_is_the_nearest_integer_witness :
  exists z,
    py_round (bar_center Demo.des_encrypt_bar) = inr z /\
    tick_label Demo.large_axes Demo.des_encrypt_bar =
      py_getitem (xticklabels Demo.large_axes) z /\
    let v := 6755399441055744 in
    (0 <= -53 -> z = v * 2 ^ (-53)) /\
    (-53 < 0 ->
     2 * Z.abs (z * 2 ^ (- -53) - v) <= 2 ^ (- -53) /\
     (2 * Z.abs (z * 2 ^ (- -53) - v) = 2 ^ (- -53) -> Z.even z = true)).
Proof.
  apply (tick_index_is_the_nearest_integer Demo.large_axes Demo.des_encrypt_bar
           false 6755399441055744%positive (-53)).
  vm_compute. reflexivity.
Defined.

(** ** Witnesses on the demo world *)


Lemma no_rows_no_error_bars_witness :
  let d := getitem_mask Demo.frame [] in
  let ax' := match @error_bar_loop Demo.libs d "plasma" "StdDev(ms)" 3
                     Demo.large_axes (patches Demo.large_axes) with
             | inr a => a
             | inl _ => set_yscale Demo.large_axes "log"
             end in
  nrows d = 0%nat /\ ax' = Demo.large_axes.
Proof.
  intros d ax'. split; [reflexivity|].
  apply (@no_rows_no_error_bars Demo.libs d "plasma" "StdDev(ms)" 3
           (patches Demo.large_axes) Demo.large_axes ax').
  - reflexivity.
  - vm_compute. reflexivity.
Defined.



Lemma channel_count_mismatch_reads_as_decrypt_witness :
  @hue_of Demo.libs "viridis"
    {| get_x := (-0.5)%float; get_width := 0.5%float; get_height := 1%float;
       get_facecolor := [0.25%float; 0.5%float; 0.75%float; 1%float] |}
  = inr "decrypt".
Proof.
  apply (@channel_count_mismatch_reads_as_decrypt Demo.libs "viridis" _
           Demo.enc_color [Demo.dec_color]).
  - reflexivity.
  - simpl. lia.
Defined.

Lemma panel_rows_have_exactly_the_panel_file_name_witness :
  exists sub_df,
    @facet_step Demo.libs Demo.frame (Demo.facets (catplot_args Demo.frame)) 1%nat
      Demo.large_axes =
      @add_error_bars Demo.libs sub_df "plasma" "StdDev(ms)" 3
        (set_yscale Demo.large_axes "log") /\
    forall col s, getitem Demo.frame col = inr s ->
      exists s', getitem sub_df col = inr s' /\
        cells s' = (filter (fun p => p.1 = "2_5MB") (zip Demo.names (cells s))).*2.
Proof.
  apply (@panel_rows_have_exactly_the_panel_file_name Demo.libs Demo.frame
           (Demo.facets (catplot_args Demo.frame)) 1%nat Demo.large_axes "2_5MB"
           Demo.names false);
    reflexivity.
Defined.

Lemma derived_column_is_appended_or_replaced_witness :
  let w := set_heap Demo.empty_world [Demo.frame] in
  exists mask big,
    large_file_mask Demo.frame = inr mask /\
    heap (make_large_file 0%nat w).2 !! 2%nat = Some big /\
    big.*1 = (if decide ("Throughput_StdDev" ∈ Demo.frame.*1) then Demo.frame.*1
              else Demo.frame.*1 ++ ["Throughput_StdDev"]) /\
    forall col, col <> "Throughput_StdDev" ->
      getitem big col = getitem (getitem_mask Demo.frame mask) col.
Proof.
  intros w.
  apply (derived_column_is_appended_or_replaced 0%nat 2%nat w
           (make_large_file 0%nat w).2 Demo.frame).
  - reflexivity.
  - vm_compute. reflexivity.
Defined.

Lemma large_file_frame_is_rectangular_witness :
  let w := set_heap Demo.empty_world [Demo.frame] in
  exists big vs,
    heap (make_large_file 0%nat w).2 !! 2%nat = Some big /\
    frame_wf big /\
    nrows big = length (filter (fun name => contains "2_5MB" name = true) Demo.names) /\
    getitem big "Throughput_StdDev" = inr {| values := Floats vs; categorical := false |} /\
    length vs = nrows big.
Proof.
  intros w.
  apply (large_file_frame_is_rectangular 0%nat 2%nat w (make_large_file 0%nat w).2
           Demo.frame Demo.names false).
  - reflexivity.
  - exact frame_wf_demo.
  - reflexivity.
  - vm_compute. reflexivity.
Defined.

Lemma loading_changes_dtypes_only_witness :
  let w' := (@load Demo.libs (csv_path Demo.dir) Demo.world).2 in
  exists file d0 d,
    fs Demo.world !! csv_path Demo.dir = Some file /\
    @read_csv Demo.libs file = inr d0 /\
    0%nat = length (heap Demo.world) /\ heap w' = heap Demo.world ++ [d] /\
    d.*1 = d0.*1 /\
    forall col s, getitem d0 col = inr s ->
      getitem d col =
      inr {| values := values s;
             categorical := if String.eqb col "Cipher" || String.eqb col "Operation"
                            then true else categorical s |}.
Proof.
  intros w'.
  apply (@loading_changes_dtypes_only Demo.libs (csv_path Demo.dir) 0%nat Demo.world w').
  vm_compute. reflexivity.
Defined.


(** ** Beyond the claims: when the run completes *)








Section Completion.
Context `{Libs}.
Variable results_dir : string.





End Completion.


Lemma only_the_two_images_are_written_witness :
  fs (@generate_plots Demo.libs Demo.dir Demo.world).2 !! csv_path Demo.dir =
  fs Demo.world !! csv_path Demo.dir.
Proof.
  exact (proj2 (@only_the_two_images_are_written Demo.libs Demo.dir Demo.world)).
Defined.
